(** * Weighted deterministic metrics: dimension and weight preprocessing

    A shallow embedding of [xskillscore/core/deterministic.py]: the two
    helpers [_preprocess_dims] and [_preprocess_weights] and the five public
    metric functions [pearson_r], [pearson_r_p_value], [rmse], [mse], [mae].

    The module is a thin layer over a labelled-array engine (xarray).  The
    engine operations the module calls are modelled here on arrays that carry
    named dimensions, sizes and values (no coordinate labels, names or
    attributes).  The numeric kernels and [xr.apply_ufunc] are outside the
    module: a metric function returns the description of the call it hands to
    the engine. *)

From Stdlib Require Import ZArith QArith String Ascii List Lia DecimalString.
From stdpp Require Import base gmap strings list.
Import ListNotations.

Local Open Scope string_scope.
Local Open Scope list_scope.

(** ** Python values used by the module *)

Module Py.

(** Exceptions.  [ValueError] is what the module itself raises, with its
    message.  [IndexError] is Python's own error for [dim[0]] on an empty
    list.  [XarrayError] stands for any exception that propagates out of an
    engine call, tagged with the operation that raised it. *)
Inductive exn :=
| ValueError (msg : string)
| IndexError
| XarrayError (op : string).

Inductive result (A : Type) :=
| Ok (x : A)
| Raise (e : exn).
Arguments Ok {A} x.
Arguments Raise {A} e.

Definition bind {A B} (m : result A) (k : A -> result B) : result B :=
  match m with
  | Ok x => k x
  | Raise e => Raise e
  end.

(** [x in s] for two [str]: [x] occurs in [s] as a contiguous substring. *)
Fixpoint str_in (x s : string) : bool :=
  String.prefix x s ||
  match s with
  | EmptyString => false
  | String _ s' => str_in x s'
  end.

(** [x in l] for a list of [str]. *)
Definition list_in (x : string) (l : list string) : bool :=
  existsb (String.eqb x) l.

(** [range(start, stop, step)] for a non-zero step. *)
Definition range (start stop step : Z) : list Z :=
  let n :=
    if (0 <? step)%Z then ((stop - start + step - 1) / step)%Z
    else ((start - stop - step - 1) / (- step))%Z in
  map (fun i => (start + Z.of_nat i * step)%Z) (seq 0 (Z.to_nat n)).

(** *** [repr] and [str] as the f-strings of the module use them *)

Definition dquote : ascii := ascii_of_nat 34.
Definition squote : ascii := ascii_of_nat 39.
Definition backslash : ascii := ascii_of_nat 92.

Fixpoint has_char (c : ascii) (s : string) : bool :=
  match s with
  | EmptyString => false
  | String d s' => Ascii.eqb c d || has_char c s'
  end.

Definition hex_digit (n : nat) : ascii :=
  if (n <? 10)%nat then ascii_of_nat (48 + n) else ascii_of_nat (87 + n).

(** One character inside a quoted [repr].  Bytes from 128 on are the UTF-8
    encoding of non-ASCII text, which [repr] prints unchanged when it is
    printable. *)
Definition repr_char (quote c : ascii) : string :=
  let n := nat_of_ascii c in
  if Ascii.eqb c backslash then String backslash (String backslash EmptyString)
  else if Ascii.eqb c quote then String backslash (String quote EmptyString)
  else if (n =? 10)%nat then String backslash "n"
  else if (n =? 13)%nat then String backslash "r"
  else if (n =? 9)%nat then String backslash "t"
  else if ((n <? 32) || (n =? 127))%nat then
    String backslash
      (String "x" (String (hex_digit (n / 16)) (String (hex_digit (n mod 16)) EmptyString)))
  else String c EmptyString.

Fixpoint repr_chars (quote : ascii) (s : string) : string :=
  match s with
  | EmptyString => EmptyString
  | String c s' => repr_char quote c +:+ repr_chars quote s'
  end.

(** [repr(s)] for a [str]: single quotes, unless the text has a single
    quote and no double quote. *)
Definition repr_str (s : string) : string :=
  let quote := if has_char squote s && negb (has_char dquote s) then dquote else squote in
  String quote (repr_chars quote s +:+ String quote EmptyString).

(** [repr(n)] for a non-negative [int]. *)
Definition repr_int (n : nat) : string :=
  NilEmpty.string_of_uint (Nat.to_uint n).

(** [repr(l)] for a list of [str]. *)
Definition repr_list (l : list string) : string :=
  "[" +:+ String.concat ", " (map repr_str l) +:+ "]".

(** [repr(d)] for a dict from [str] to [int], in insertion order. *)
Definition repr_dict (d : list (string * nat)) : string :=
  "{" +:+ String.concat ", " (map (fun kv => repr_str (fst kv) +:+ ": " +:+ repr_int (snd kv)) d) +:+ "}".

End Py.

Import Py.

Notation "'let*' x ':=' m 'in' k" := (Py.bind m (fun x => k))
  (at level 10, x name, m at level 100, k at level 200).

(** ** Array values

    Entries are rationals extended with the two infinities and NaN, so that
    division by a zero maximum and comparisons with NaN behave as in the
    arrays of the engine.  Rounding is not modelled and the two signed zeros
    are one value. *)

Inductive val :=
| Num (q : Q)
| PInf
| NInf
| NaN.

Definition zero : val := Num 0.
Definition one : val := Num 1.

Definition is_nan (x : val) : bool :=
  match x with NaN => true | _ => false end.

(** [x < y]; false as soon as one side is NaN. *)
Definition vltb (x y : val) : bool :=
  match x, y with
  | NaN, _ | _, NaN => false
  | Num a, Num b => negb (Qle_bool b a)
  | NInf, NInf => false
  | NInf, _ => true
  | _, NInf => false
  | PInf, _ => false
  | Num _, PInf => true
  end.

(** [x / y]. *)
Definition vdiv (x y : val) : val :=
  match x, y with
  | NaN, _ | _, NaN => NaN
  | Num a, Num b =>
      if Qeq_bool b 0 then
        (if Qeq_bool a 0 then NaN else if Qle_bool 0 a then PInf else NInf)
      else Num (Qred (a / b))
  | Num _, (PInf | NInf) => zero
  | (PInf | NInf), (PInf | NInf) => NaN
  | PInf, Num b => if Qle_bool 0 b then PInf else NInf
  | NInf, Num b => if Qle_bool 0 b then NInf else PInf
  end.

Definition vmax (x y : val) : val := if vltb x y then y else x.
Definition vmin (x y : val) : val := if vltb y x then y else x.

(** A reduction that skips NaN entries, the engine's default for [max] and
    [min]; NaN when nothing else is left. *)
Definition nan_reduce (pick : val -> val -> val) (l : list val) : val :=
  match List.filter (fun x => negb (is_nan x)) l with
  | [] => NaN
  | x :: r => fold_left pick r x
  end.

(** ** Labelled arrays *)

(** [sizes] lists the dimensions in order with their lengths; [values] is the
    data in row-major order. *)
Record DataArray := {
  sizes : list (string * nat);
  values : list val
}.

Definition dims (a : DataArray) : list string := map fst (sizes a).

(** Number of entries of an array with these sizes. *)
Definition size_of (sz : list (string * nat)) : nat :=
  fold_right Nat.mul 1 (map snd sz).

(** [dict(a.sizes)]: the size mapping without its order.  The names of an
    array are distinct, so no key is given twice. *)
Definition as_dict (sz : list (string * nat)) : gmap string nat := list_to_map sz.

(** *** Named indexing *)

(** The position along dimension [d] in a named index; dimensions the index
    does not mention are read at position 0. *)
Fixpoint coord (idx : list (string * nat)) (d : string) : nat :=
  match idx with
  | [] => 0
  | (k, i) :: idx' => if String.eqb k d then i else coord idx' d
  end.

Definition offset (sz : list (string * nat)) (idx : list (string * nat)) : nat :=
  fold_left (fun acc kn => acc * snd kn + coord idx (fst kn)) sz 0.

Definition item (a : DataArray) (idx : list (string * nat)) : val :=
  nth (offset (sizes a) idx) (values a) NaN.

(** All named indices of an array with these sizes, in row-major order. *)
Fixpoint indices (sz : list (string * nat)) : list (list (string * nat)) :=
  match sz with
  | [] => [[]]
  | (d, n) :: sz' =>
      flat_map (fun i => map (cons (d, i)) (indices sz')) (seq 0 n)
  end.

(** The array laid out along [target], each entry read from [a] by name. *)
Definition reindex (target : list (string * nat)) (a : DataArray) : DataArray :=
  {| sizes := target; values := map (item a) (indices target) |}.

Definition size_along (a : DataArray) (d : string) : nat :=
  match find (fun kn => String.eqb (fst kn) d) (sizes a) with
  | Some kn => snd kn
  | None => 0
  end.

(** ** Engine operations called by the module *)

Module xr.

(** [xr.ones_like(a)]. *)
Definition ones_like (a : DataArray) : DataArray :=
  {| sizes := sizes a; values := repeat one (size_of (sizes a)) |}.

(** [w.max()] and [w.min()] over all entries, NaN entries skipped.  A
    reduction of an array without entries raises in the engine. *)
Definition max (w : DataArray) : result val :=
  match values w with
  | [] => Raise (XarrayError "max")
  | l => Ok (nan_reduce vmax l)
  end.

Definition min (w : DataArray) : result val :=
  match values w with
  | [] => Raise (XarrayError "min")
  | l => Ok (nan_reduce vmin l)
  end.

(** [w / m] for a scalar [m]. *)
Definition div (w : DataArray) (m : val) : DataArray :=
  {| sizes := sizes w; values := map (fun x => vdiv x m) (values w) |}.

(** [a.isel({k: 0 for k in drop})]: position 0 along every dimension of
    [drop], which removes those dimensions.  Position 0 of an empty
    dimension is out of bounds. *)
Definition isel0 (a : DataArray) (drop : list string) : result DataArray :=
  if existsb (fun kn => list_in (fst kn) drop && (snd kn =? 0)%nat) (sizes a)
  then Raise (XarrayError "isel")
  else Ok (reindex (List.filter (fun kn => negb (list_in (fst kn) drop)) (sizes a)) a).

(** The second component of [xr.broadcast(a, w)]: [w] over the dimensions
    of [a] followed by those only [w] has.  A dimension both have must have
    one length. *)
Definition broadcast (a w : DataArray) : result DataArray :=
  if forallb (fun kn => negb (list_in (fst kn) (dims a)) || (size_along a (fst kn) =? snd kn)%nat)
       (sizes w)
  then Ok (reindex (sizes a ++ List.filter (fun kn => negb (list_in (fst kn) (dims a))) (sizes w)) w)
  else Raise (XarrayError "broadcast").

(** [x.stack] with the keyword [new_dim] bound to [dim]: the dimensions of
    [dim], in the order of [dim], become one trailing dimension [new_dim],
    the last name of [dim] varying fastest.  Every name of [dim] must be a
    dimension of [x], without repetition, and [new_dim] must not be one
    already. *)
Definition stack (new_dim : string) (dim : list string) (x : DataArray) : result DataArray :=
  if forallb (fun d => list_in d (dims x)) dim
     && bool_decide (NoDup dim)
     && negb (list_in new_dim (dims x))
  then
    let others := List.filter (fun kn => negb (list_in (fst kn) dim)) (sizes x) in
    let picked := map (fun d => (d, size_along x d)) dim in
    Ok {| sizes := others ++ [(new_dim, size_of picked)];
          values := values (reindex (others ++ picked) x) |}
  else Raise (XarrayError "stack").

End xr.

(** ** The module *)

(** A [dim] argument: one name or a list of names. *)
Inductive dim_arg :=
| DimStr (s : string)
| DimList (l : list string).

(** [i in c], by the type of [c]: substring of a [str], element of a list. *)
Definition py_in (i : string) (c : dim_arg) : bool :=
  match c with
  | DimStr s => str_in i s
  | DimList l => list_in i l
  end.

(** [dim] as an f-string field prints it. *)
Definition fmt_dim (d : dim_arg) : string :=
  match d with
  | DimStr s => s
  | DimList l => repr_list l
  end.

Definition _preprocess_dims (dim : dim_arg) : list string * list Z :=
  let dim :=
    match dim with
    | DimStr s => [s]
    | DimList l => l
    end in
  let axis := range (-1) (- Z.of_nat (length dim) - 1) (-1) in
  (dim, axis).

Definition negative_weights_msg : string :=
  "Weights has a minimum below 0. Please submit a weights array " +:+
  "of positive numbers.".

Definition size_mismatch_msg (dim : dim_arg) (w_sizes a_sizes : list (string * nat)) : string :=
  "weights dimension(s) " +:+ fmt_dim dim +:+ " of size " +:+ repr_dict w_sizes +:+ " " +:+
  "does not match DataArray's size " +:+ repr_dict a_sizes.

(** [[i for i in a.dims if i not in new_dim]]. *)
Definition drop_dims (a : DataArray) (new_dim : dim_arg) : list string :=
  List.filter (fun i => negb (py_in i new_dim)) (dims a).

Definition _preprocess_weights (a : DataArray) (dim new_dim : dim_arg)
    (weights : option DataArray) : result DataArray :=
  match weights with
  | None => Ok (xr.ones_like a)
  | Some weights =>
      let* m := xr.max weights in
      let weights := xr.div weights m in
      let* lo := xr.min weights in
      if vltb lo zero then Raise (ValueError negative_weights_msg)
      else
        let* sel := xr.isel0 a (drop_dims a new_dim) in
        if bool_decide (as_dict (sizes weights) <> as_dict (sizes sel)) then
          Raise (ValueError (size_mismatch_msg dim (sizes weights) (sizes sel)))
        else if bool_decide (as_dict (sizes weights) <> as_dict (sizes a)) then
          xr.broadcast a weights
        else Ok weights
  end.

(** The kernels of [np_deterministic], by name. *)
Inductive kernel :=
| _pearson_r
| _pearson_r_p_value
| _rmse
| _mse
| _mae.

(** The [axis] keyword handed to a kernel. *)
Inductive axis_arg :=
| AxisInt (z : Z)
| AxisTuple (l : list Z).

(** A call [xr.apply_ufunc(func, a, b, weights, input_core_dims=...,
    kwargs={'axis': ...}, dask='parallelized', output_dtypes=[float])]. *)
Record ufunc_call := {
  func : kernel;
  arg_a : DataArray;
  arg_b : DataArray;
  arg_weights : DataArray;
  input_core_dims : list (list string);
  axis : axis_arg
}.

Definition pearson_r (a b : DataArray) (dim : dim_arg) (weights : option DataArray)
    : result ufunc_call :=
  let '(dim, _) := _preprocess_dims dim in
  let* st :=
    (if (1 <? length dim)%nat then
       let new_dim := String.concat "_" dim in
       let* a := xr.stack new_dim dim a in
       let* b := xr.stack new_dim dim b in
       let* weights :=
         match weights with
         | Some w => let* w := xr.stack new_dim dim w in Ok (Some w)
         | None => Ok None
         end in
       Ok (a, b, weights, new_dim)
     else
       match dim with
       | d :: _ => Ok (a, b, weights, d)
       | [] => Raise IndexError
       end) in
  let '(a, b, weights, new_dim) := st in
  let* weights := _preprocess_weights a (DimList dim) (DimStr new_dim) weights in
  Ok {| func := _pearson_r; arg_a := a; arg_b := b; arg_weights := weights;
        input_core_dims := [[new_dim]; [new_dim]; [new_dim]];
        axis := AxisInt (-1) |}.

Definition pearson_r_p_value (a b : DataArray) (dim : dim_arg) (weights : option DataArray)
    : result ufunc_call :=
  let '(dim, _) := _preprocess_dims dim in
  let* st :=
    (if (1 <? length dim)%nat then
       let new_dim := String.concat "_" dim in
       let* a := xr.stack new_dim dim a in
       let* b := xr.stack new_dim dim b in
       let* weights :=
         match weights with
         | Some w => let* w := xr.stack new_dim dim w in Ok (Some w)
         | None => Ok None
         end in
       Ok (a, b, weights, new_dim)
     else
       match dim with
       | d :: _ => Ok (a, b, weights, d)
       | [] => Raise IndexError
       end) in
  let '(a, b, weights, new_dim) := st in
  let* weights := _preprocess_weights a (DimList dim) (DimStr new_dim) weights in
  Ok {| func := _pearson_r_p_value; arg_a := a; arg_b := b; arg_weights := weights;
        input_core_dims := [[new_dim]; [new_dim]; [new_dim]];
        axis := AxisInt (-1) |}.

Definition rmse (a b : DataArray) (dim : dim_arg) (weights : option DataArray)
    : result ufunc_call :=
  let '(dim, axis) := _preprocess_dims dim in
  let* weights := _preprocess_weights a (DimList dim) (DimList dim) weights in
  Ok {| func := _rmse; arg_a := a; arg_b := b; arg_weights := weights;
        input_core_dims := [dim; dim; dim];
        axis := AxisTuple axis |}.

Definition mse (a b : DataArray) (dim : dim_arg) (weights : option DataArray)
    : result ufunc_call :=
  let '(dim, axis) := _preprocess_dims dim in
  let* weights := _preprocess_weights a (DimList dim) (DimList dim) weights in
  Ok {| func := _mse; arg_a := a; arg_b := b; arg_weights := weights;
        input_core_dims := [dim; dim; dim];
        axis := AxisTuple axis |}.

Definition mae (a b : DataArray) (dim : dim_arg) (weights : option DataArray)
    : result ufunc_call :=
  let '(dim, axis) := _preprocess_dims dim in
  let* weights := _preprocess_weights a (DimList dim) (DimList dim) weights in
  Ok {| func := _mae; arg_a := a; arg_b := b; arg_weights := weights;
        input_core_dims := [dim; dim; dim];
        axis := AxisTuple axis |}.

(** The public names of the module ([__all__]) and the function behind each. *)
Inductive metric :=
| Pearson_r
| Pearson_r_p_value
| Rmse
| Mse
| Mae.

Definition metric_fn (m : metric)
    : DataArray -> DataArray -> dim_arg -> option DataArray -> result ufunc_call :=
  match m with
  | Pearson_r => pearson_r
  | Pearson_r_p_value => pearson_r_p_value
  | Rmse => rmse
  | Mse => mse
  | Mae => mae
  end.

(** ** Notions the statements use *)

(** The dimension an [axis] number addresses in an array whose dimensions are
    [layout]: a negative number counts from the end. *)
Definition axis_dim (layout : list string) (ax : Z) : option string :=
  let n := Z.of_nat (length layout) in
  if ((ax <? - n) || (n <=? ax))%Z then None
  else nth_error layout (Z.to_nat (if (ax <? 0)%Z then ax + n else ax)%Z).

(** An array of ones over the given sizes. *)
Definition ones_over (sz : list (string * nat)) : DataArray :=
  {| sizes := sz; values := repeat one (size_of sz) |}.

(** The sizes of [a] along the dimensions named in [names], in the order of
    [a]. *)
Definition restrict_sizes (a : DataArray) (names : list string) : list (string * nat) :=
  List.filter (fun kn => list_in (fst kn) names) (sizes a).

(** The weights as the negative-value check sees them: divided by their
    maximum. *)
Definition normalized (w : DataArray) : result DataArray :=
  let* m := xr.max w in Ok (xr.div w m).

(** The correlation family as the specification words it for more than one
    reduction dimension: stack [a], [b] and, when supplied, [weights] into
    the dimension named by the underscore-join of the names, preprocess the
    weights against the stacked [a], and reduce along the last axis. *)
Definition stacked_call (k : kernel) (a b : DataArray) (names : list string)
    (weights : option DataArray) : result ufunc_call :=
  let new_dim := String.concat "_" names in
  let* sa := xr.stack new_dim names a in
  let* sb := xr.stack new_dim names b in
  let* sw :=
    match weights with
    | Some w => let* s := xr.stack new_dim names w in Ok (Some s)
    | None => Ok None
    end in
  let* w := _preprocess_weights sa (DimList names) (DimStr new_dim) sw in
  Ok {| func := k; arg_a := sa; arg_b := sb; arg_weights := w;
        input_core_dims := [[new_dim]; [new_dim]; [new_dim]];
        axis := AxisInt (-1) |}.

(** The position along a combined dimension that the positions [idx] along
    the dimensions [names] of [x] make up: row-major in the listed order,
    the last name varying fastest. *)
Definition flat_index (x : DataArray) (names : list string) (idx : list (string * nat)) : nat :=
  fold_left (fun acc d => acc * size_along x d + coord idx d) names 0.

(** [sx] is [x] with the dimensions [names] combined, in their listed order,
    into the one dimension [new_dim]: the other dimensions stay in front,
    the new one comes last with as many positions as the listed ones have
    together, and every entry of [x] is found at its combined position. *)
Definition stacked_from (new_dim : string) (names : list string) (x sx : DataArray) : Prop :=
  sizes sx
    = List.filter (fun kn => negb (list_in (fst kn) names)) (sizes x)
      ++ [(new_dim, fold_right Nat.mul 1 (map (size_along x) names))]
  /\ length (values sx) = size_of (sizes sx)
  /\ forall idx,
       In idx (indices (sizes x)) ->
       item sx ((new_dim, flat_index x names idx) :: idx) = item x idx.

(** The same for weights, which may be missing. *)
Definition stacked_weights (new_dim : string) (names : list string)
    (weights sw : option DataArray) : Prop :=
  match weights, sw with
  | Some w, Some s => stacked_from new_dim names w s
  | None, None => True
  | _, _ => False
  end.

(** What the engine asks of an array before it stacks [names] into
    [new_dim]. *)
Definition can_stack (new_dim : string) (names : list string) (x : DataArray) : Prop :=
  (forall d, In d names -> In d (dims x)) /\ NoDup names /\ ~ In new_dim (dims x).

(** The error family as the specification words it: no stacking, the
    weights preprocessed against the list of names, and the axis tuple of
    the dimension normalizer handed on. *)
Definition unstacked_call (k : kernel) (a b : DataArray) (dim : dim_arg)
    (weights : option DataArray) : result ufunc_call :=
  let names := fst (_preprocess_dims dim) in
  let* w := _preprocess_weights a (DimList names) (DimList names) weights in
  Ok {| func := k; arg_a := a; arg_b := b; arg_weights := w;
        input_core_dims := [names; names; names];
        axis := AxisTuple (snd (_preprocess_dims dim)) |}.

(** The kernel a metric function dispatches to. *)
Definition kernel_of (m : metric) : kernel :=
  match m with
  | Pearson_r => _pearson_r
  | Pearson_r_p_value => _pearson_r_p_value
  | Rmse => _rmse
  | Mse => _mse
  | Mae => _mae
  end.

(** The correlation family for one reduction dimension [d]: nothing is
    stacked and the name is used as it is. *)
Definition single_call (k : kernel) (a b : DataArray) (names : list string) (d : string)
    (weights : option DataArray) : result ufunc_call :=
  let* w := _preprocess_weights a (DimList names) (DimStr d) weights in
  Ok {| func := k; arg_a := a; arg_b := b; arg_weights := w;
        input_core_dims := [[d]; [d]; [d]];
        axis := AxisInt (-1) |}.

(** The two families of metric functions. *)
Definition is_correlation (m : metric) : bool :=
  match m with
  | Pearson_r | Pearson_r_p_value => true
  | Rmse | Mse | Mae => false
  end.

(** An input as the weight preprocessor meets it: the correlation family
    stacks it first when there is more than one reduction dimension. *)
Definition prepared (m : metric) (names : list string) (x : DataArray) : result DataArray :=
  if is_correlation m && (1 <? length names)%nat
  then xr.stack (String.concat "_" names) names x
  else Ok x.

(** The reduction dimensions as the prepared inputs carry them: the one
    dimension the correlation family reduces along, or the listed names. *)
Definition reduced (m : metric) (names : list string) : list string :=
  if is_correlation m then [String.concat "_" names] else names.

(** No dimension of [a] other than [new_dim] has a name that occurs inside
    [new_dim]. *)
Definition no_substring_clash (new_dim : string) (a : DataArray) : Prop :=
  forall k, In k (dims a) -> k <> new_dim -> str_in k new_dim = false.

(** Entries that are numbers, and their order. *)
Definition is_number (x : val) : Prop :=
  match x with Num _ => True | _ => False end.

Definition num_le (x y : val) : Prop :=
  match x, y with
  | Num a, Num b => (a <= b)%Q
  | _, _ => False
  end.





(** The weights a call hands to the kernel, or the error the call ends in. *)
Definition weights_of (r : result ufunc_call) : result DataArray :=
  let* c := r in Ok (arg_weights c).

(** ** Example arrays *)

Module Examples.

Definition num (z : Z) : val := Num (inject_Z z).

(** Two rows of three entries, over dimensions [t] and [lat]. *)
Definition grid : DataArray :=
  {| sizes := [("t", 2%nat); ("lat", 3%nat)];
     values := map num [1; 2; 3; 4; 5; 6]%Z |}.

(** A series of two entries over [time]. *)
Definition series : DataArray :=
  {| sizes := [("time", 2%nat)]; values := map num [1; 2]%Z |}.

(** Weights over [time] that are all negative. *)
Definition all_negative : DataArray :=
  {| sizes := [("time", 2%nat)]; values := map num [-1; -2]%Z |}.

(** Weights over [time] that are all zero. *)
Definition all_zero : DataArray :=
  {| sizes := [("time", 2%nat)]; values := map num [0; 0]%Z |}.

(** Weights of the wrong length over [time], one of them negative. *)
Definition long_mixed : DataArray :=
  {| sizes := [("time", 3%nat)]; values := map num [1; -1; 1]%Z |}.

(** Weights of the wrong length over [time], none negative. *)
Definition long_positive : DataArray :=
  {| sizes := [("time", 3%nat)]; values := map num [1; 2; 4]%Z |}.

(** Two rows of three entries, over dimensions [time] and [lat]. *)
Definition field : DataArray :=
  {| sizes := [("time", 2%nat); ("lat", 3%nat)];
     values := map num [1; 2; 3; 4; 5; 6]%Z |}.

(** Weights over [t] and [lat] with fewer entries than [grid]. *)
Definition small_grid : DataArray :=
  {| sizes := [("t", 2%nat); ("lat", 2%nat)]; values := map num [1; 2; 3; 4]%Z |}.

(** Weights over [t] and [lat] with as many entries as [grid], shaped three
    by two instead of two by three. *)
Definition other_shape : DataArray :=
  {| sizes := [("t", 3%nat); ("lat", 2%nat)];
     values := map num [1; 2; 3; 4; 5; 6]%Z |}.

(** Weights over [lat] alone. *)
Definition lat_weights : DataArray :=
  {| sizes := [("lat", 3%nat)]; values := map num [1; 2; 4]%Z |}.

End Examples.

(** * Properties *)

(** Closes a decidable closed goal by evaluating its decision procedure. *)
Ltac by_decide :=
  match goal with
  | |- ?P => apply (@bool_decide_unpack P _); vm_compute; exact I
  end.

(** ** Python helpers *)

Lemma prefix_iff (x s : string) :
  String.prefix x s = true <-> exists post, s = x +:+ post.
Proof.
  revert s. induction x as [|c x IH]; intros s; simpl.
  - destruct s; split; eauto.
  - destruct s as [|c' s].
    + split; [discriminate | intros [post H]; discriminate].
    + simpl. destruct (Ascii.ascii_dec c c') as [->|Hne].
      * rewrite IH. split; intros [post H]; exists post.
        -- simpl. now rewrite H.
        -- simpl in H. now injection H.
      * split; [discriminate | intros [post H]; simpl in H; injection H as H1 H2; congruence].
Qed.

(** [str_in] is Python's substring test. *)
Lemma str_in_iff (x s : string) :
  str_in x s = true <-> exists pre post, s = pre +:+ x +:+ post.
Proof.
  induction s as [|c s IH].
  - change (str_in x EmptyString) with (String.prefix x EmptyString || false).
    rewrite orb_false_r, prefix_iff. split.
    + intros [post H]. exists EmptyString, post. exact H.
    + intros [pre [post H]]. destruct pre; simpl in H; [eauto | discriminate].
  - change (str_in x (String c s)) with (String.prefix x (String c s) || str_in x s).
    rewrite orb_true_iff, IH, prefix_iff. split.
    + intros [[post H] | [pre [post H]]].
      * exists EmptyString, post. exact H.
      * exists (String c pre), post. subst s. reflexivity.
    + intros [pre [post H]]. destruct pre as [|c' pre]; simpl in H.
      * left. eauto.
      * right. exists pre, post. now injection H.
Qed.

Lemma append_nil_r (s : string) : s +:+ EmptyString = s.
Proof.
  induction s as [|c s IH]; [reflexivity|].
  change (String c (s +:+ EmptyString) = String c s). now rewrite IH.
Qed.

Lemma append_assoc (s t u : string) : (s +:+ t) +:+ u = s +:+ (t +:+ u).
Proof.
  induction s as [|c s IH]; [reflexivity|].
  change (String c ((s +:+ t) +:+ u) = String c (s +:+ (t +:+ u))). now rewrite IH.
Qed.

Lemma str_in_refl (s : string) : str_in s s = true.
Proof.
  apply str_in_iff. exists EmptyString, EmptyString.
  change (s = s +:+ EmptyString). now rewrite append_nil_r.
Qed.

Lemma list_in_iff (x : string) (l : list string) :
  list_in x l = true <-> In x l.
Proof.
  unfold list_in. rewrite existsb_exists. split.
  - intros [y [Hy E]]. apply String.eqb_eq in E. now subst.
  - intros H. exists x. split; [exact H | apply String.eqb_refl].
Qed.

Lemma range_down (n : nat) :
  range (-1) (- Z.of_nat n - 1) (-1) = map (fun k => (- Z.of_nat (S k))%Z) (seq 0 n).
Proof.
  unfold range. set (cnt := Z.to_nat _).
  assert (cnt = n) as ->.
  { subst cnt. change (0 <? -1)%Z with false. cbv iota.
    change (- (-1))%Z with 1%Z. rewrite Z.div_1_r. lia. }
  apply map_ext. intros k. lia.
Qed.

Lemma raise_value_error_inj {A} (s t : string) :
  @Raise A (ValueError s) = Raise (ValueError t) -> s = t.
Proof.
  intros H.
  exact (f_equal (fun r => match r with Raise (ValueError u) => u | _ => s end) H).
Qed.

(** ** Array values *)

Lemma fold_pick_in (pick : val -> val -> val) (r : list val) (x : val) :
  (forall u v, pick u v = u \/ pick u v = v) ->
  In (fold_left pick r x) (x :: r).
Proof.
  intros Hpick. revert x. induction r as [|y r IH]; intros x; simpl.
  - left. reflexivity.
  - destruct (IH (pick x y)) as [E|Hin].
    + destruct (Hpick x y) as [H|H]; rewrite H in E |- *; [left | right; left]; exact E.
    + right. right. exact Hin.
Qed.

Lemma vmax_pick (u v : val) : vmax u v = u \/ vmax u v = v.
Proof. unfold vmax. destruct (vltb u v); auto. Qed.

Lemma vmin_pick (u v : val) : vmin u v = u \/ vmin u v = v.
Proof. unfold vmin. destruct (vltb v u); auto. Qed.

(** A NaN-skipping reduction returns NaN or one of the entries. *)
Lemma nan_reduce_in (pick : val -> val -> val) (l : list val) :
  (forall u v, pick u v = u \/ pick u v = v) ->
  nan_reduce pick l = NaN \/ In (nan_reduce pick l) l.
Proof.
  intros Hpick. unfold nan_reduce.
  destruct (List.filter _ l) as [|x r] eqn:E; [left; reflexivity|].
  right. pose proof (fold_pick_in pick r x Hpick) as Hin.
  rewrite <- E in Hin. apply filter_In in Hin. tauto.
Qed.

(** A property of numbers shared by all entries holds of the reduction. *)
Lemma nan_reduce_forall (pick : val -> val -> val) (P : val -> Prop) (l : list val) :
  (forall u v, pick u v = u \/ pick u v = v) ->
  l <> [] -> ~ P NaN -> Forall P l -> P (nan_reduce pick l).
Proof.
  intros Hpick Hne HnP Hall.
  assert (Hkeep : List.filter (fun x => negb (is_nan x)) l = l).
  { apply forallb_filter_id. apply forallb_forall. intros x Hx.
    rewrite List.Forall_forall in Hall. specialize (Hall x Hx).
    destruct x; try reflexivity. contradiction. }
  destruct (nan_reduce_in pick l Hpick) as [E|Hin].
  - unfold nan_reduce in E |- *. rewrite Hkeep in E |- *.
    destruct l as [|x r]; [contradiction|].
    pose proof (fold_pick_in pick r x Hpick) as Hin.
    rewrite List.Forall_forall in Hall. apply Hall. exact Hin.
  - rewrite List.Forall_forall in Hall. apply Hall. exact Hin.
Qed.

Lemma nan_reduce_ones (pick : val -> val -> val) (n : nat) :
  (forall u v, pick u v = u \/ pick u v = v) ->
  n <> 0%nat -> nan_reduce pick (repeat one n) = one.
Proof.
  intros Hpick Hn.
  apply (nan_reduce_forall pick (fun x => x = one)).
  - exact Hpick.
  - destruct n; [contradiction | discriminate].
  - intros H. discriminate H.
  - apply List.Forall_forall. intros x Hx. now apply repeat_spec in Hx.
Qed.

Lemma filter_numbers (l : list val) :
  Forall is_number l -> List.filter (fun x => negb (is_nan x)) l = l.
Proof.
  intros H. apply forallb_filter_id. apply forallb_forall. intros x Hx.
  rewrite List.Forall_forall in H. specialize (H x Hx). destruct x; try reflexivity.
  contradiction.
Qed.

Lemma num_le_refl (x : val) : is_number x -> num_le x x.
Proof. destruct x; simpl; try contradiction. intros _. apply Qle_refl. Qed.

Lemma num_le_trans (x y z : val) : num_le x y -> num_le y z -> num_le x z.
Proof.
  destruct x, y, z; simpl; try contradiction. apply Qle_trans.
Qed.

Lemma vmax_upper (x y : val) :
  is_number x -> is_number y -> num_le x (vmax x y) /\ num_le y (vmax x y).
Proof.
  destruct x as [a| | |], y as [b| | |]; simpl; try contradiction. intros _ _.
  unfold vmax. cbn [vltb]. destruct (Qle_bool b a) eqn:E; cbn [negb num_le].
  - apply Qle_bool_iff in E. split; [apply Qle_refl | exact E].
  - split; [|apply Qle_refl].
    destruct (Qlt_le_dec a b) as [H|H]; [now apply Qlt_le_weak|].
    apply Qle_bool_iff in H. congruence.
Qed.

Lemma vmin_lower (x y : val) :
  is_number x -> is_number y -> num_le (vmin x y) x /\ num_le (vmin x y) y.
Proof.
  destruct x as [a| | |], y as [b| | |]; simpl; try contradiction. intros _ _.
  unfold vmin. cbn [vltb]. destruct (Qle_bool a b) eqn:E; cbn [negb num_le].
  - apply Qle_bool_iff in E. split; [apply Qle_refl | exact E].
  - split; [|apply Qle_refl].
    destruct (Qlt_le_dec b a) as [H|H]; [now apply Qlt_le_weak|].
    apply Qle_bool_iff in H. congruence.
Qed.

(** The maximum of numbers is a number above every entry. *)
Lemma nan_reduce_vmax_upper (l : list val) (x : val) :
  Forall is_number l -> In x l -> num_le x (nan_reduce vmax l).
Proof.
  intros Hnum Hx. unfold nan_reduce. rewrite (filter_numbers l Hnum).
  destruct l as [|y r]; [destruct Hx|].
  revert y x Hnum Hx. induction r as [|z r IH]; intros y x Hnum Hx.
  - destruct Hx as [<-|[]]. apply num_le_refl. now inversion Hnum.
  - cbn [fold_left].
    assert (Hy : is_number y) by now inversion Hnum.
    assert (Hz : is_number z) by (inversion Hnum as [|? ? _ H]; now inversion H).
    assert (Hr : Forall is_number r) by (inversion Hnum as [|? ? _ H]; now inversion H).
    destruct (vmax_upper y z Hy Hz) as [H1 H2].
    assert (Hm : is_number (vmax y z)) by (destruct (vmax_pick y z) as [->| ->]; assumption).
    assert (Hnum' : Forall is_number (vmax y z :: r)) by now constructor.
    destruct Hx as [<-|[<-|Hx]].
    + apply (num_le_trans _ _ _ H1). apply IH; [exact Hnum' | now left].
    + apply (num_le_trans _ _ _ H2). apply IH; [exact Hnum' | now left].
    + apply IH; [exact Hnum' | now right].
Qed.

(** The minimum of numbers is a number below every entry. *)
Lemma nan_reduce_vmin_lower (l : list val) (x : val) :
  Forall is_number l -> In x l -> num_le (nan_reduce vmin l) x.
Proof.
  intros Hnum Hx. unfold nan_reduce. rewrite (filter_numbers l Hnum).
  destruct l as [|y r]; [destruct Hx|].
  revert y x Hnum Hx. induction r as [|z r IH]; intros y x Hnum Hx.
  - destruct Hx as [<-|[]]. apply num_le_refl. now inversion Hnum.
  - cbn [fold_left].
    assert (Hy : is_number y) by now inversion Hnum.
    assert (Hz : is_number z) by (inversion Hnum as [|? ? _ H]; now inversion H).
    assert (Hr : Forall is_number r) by (inversion Hnum as [|? ? _ H]; now inversion H).
    destruct (vmin_lower y z Hy Hz) as [H1 H2].
    assert (Hm : is_number (vmin y z)) by (destruct (vmin_pick y z) as [->| ->]; assumption).
    assert (Hnum' : Forall is_number (vmin y z :: r)) by now constructor.
    destruct Hx as [<-|[<-|Hx]].
    + apply (fun H => num_le_trans _ _ _ H H1). apply IH; [exact Hnum' | now left].
    + apply (fun H => num_le_trans _ _ _ H H2). apply IH; [exact Hnum' | now left].
    + apply IH; [exact Hnum' | now right].
Qed.

Lemma vdiv_number (q m : Q) :
  (0 < m)%Q -> vdiv (Num q) (Num m) = Num (Qred (q / m)).
Proof.
  intros Hm. cbn [vdiv]. destruct (Qeq_bool m 0) eqn:E; [|reflexivity].
  apply Qeq_bool_iff in E. rewrite E in Hm. exact (False_ind _ (Qlt_irrefl _ Hm)).
Qed.











(** ** The array model *)

Lemma size_of_cons (k : string) (n : nat) (sz : list (string * nat)) :
  size_of ((k, n) :: sz) = (n * size_of sz)%nat.
Proof. reflexivity. Qed.

Lemma size_of_app (l1 l2 : list (string * nat)) :
  size_of (l1 ++ l2) = (size_of l1 * size_of l2)%nat.
Proof.
  induction l1 as [|[k n] l1 IH].
  - change (size_of l2 = 1 * size_of l2)%nat. lia.
  - rewrite <- app_comm_cons, !size_of_cons, IH. lia.
Qed.

Lemma size_of_filter (f : string * nat -> bool) (sz : list (string * nat)) :
  size_of sz <> 0%nat -> size_of (List.filter f sz) <> 0%nat.
Proof.
  induction sz as [|[k n] sz IH]; [auto|].
  rewrite size_of_cons. intros H. simpl. destruct (f (k, n)).
  - rewrite size_of_cons. nia.
  - apply IH. nia.
Qed.

Lemma size_of_positive (sz : list (string * nat)) (kn : string * nat) :
  size_of sz <> 0%nat -> In kn sz -> snd kn <> 0%nat.
Proof.
  unfold size_of. induction sz as [|x sz IH]; simpl; [tauto|].
  intros Hne [->|Hin].
  - intros E. rewrite E in Hne. apply Hne. reflexivity.
  - apply IH; [|exact Hin]. intros E. rewrite E in Hne. apply Hne. lia.
Qed.

Lemma size_of_not_zero (sz : list (string * nat)) :
  (forall kn, In kn sz -> snd kn <> 0%nat) -> size_of sz <> 0%nat.
Proof.
  induction sz as [|[k n] sz IH]; intros H; [discriminate|].
  rewrite size_of_cons. specialize (H (k, n) (or_introl eq_refl)) as Hn. cbn in Hn.
  specialize (IH (fun kn Hin => H kn (or_intror Hin))). nia.
Qed.

Lemma length_indices (sz : list (string * nat)) :
  length (indices sz) = size_of sz.
Proof.
  induction sz as [|[k n] sz IH]; [reflexivity|].
  rewrite size_of_cons. cbn [indices].
  rewrite (flat_map_constant_length (c := size_of sz)).
  - now rewrite length_seq.
  - intros i _. now rewrite length_map.
Qed.

(** A named index of [target] stays below the length of each dimension. *)
Lemma coord_bound (target : list (string * nat)) (idx : list (string * nat))
    (k : string) (n : nat) :
  NoDup (map fst target) -> In idx (indices target) -> In (k, n) target ->
  (coord idx k < n)%nat.
Proof.
  revert idx. induction target as [|[d n0] target IH]; intros idx Hnd Hidx Hin; [destruct Hin|].
  cbn [indices] in Hidx. apply in_flat_map in Hidx as [i [Hi Hidx]].
  apply in_map_iff in Hidx as [idx' [<- Hidx']]. apply in_seq in Hi.
  cbn [map fst] in Hnd. apply NoDup_cons in Hnd as [Hd Hnd].
  cbn [coord]. destruct Hin as [E|Hin].
  - injection E as -> ->. rewrite String.eqb_refl. lia.
  - destruct (String.eqb d k) eqn:E.
    + apply String.eqb_eq in E. subst d. exfalso. apply Hd.
      apply list_elem_of_In. apply in_map_iff. exists (k, n). auto.
    + apply IH; assumption.
Qed.

Lemma offset_bound (sz : list (string * nat)) (idx : list (string * nat)) :
  (forall k n, In (k, n) sz -> (coord idx k < n)%nat) ->
  (offset sz idx < size_of sz)%nat.
Proof.
  unfold offset. intros H.
  assert (G : forall acc,
    (fold_left (fun acc kn => acc * snd kn + coord idx (fst kn)) sz acc
       < (acc + 1) * size_of sz)%nat).
  { induction sz as [|[k n] sz IH]; intros acc.
    - cbn. lia.
    - cbn [fold_left fst snd]. rewrite size_of_cons.
      specialize (IH (fun k' n' Hin => H k' n' (or_intror Hin)) (acc * n + coord idx k)%nat).
      specialize (H k n (or_introl eq_refl)). nia. }
  specialize (G 0%nat). lia.
Qed.

Lemma offset_from (sz : list (string * nat)) (idx : list (string * nat)) (acc : nat) :
  fold_left (fun acc kn => acc * snd kn + coord idx (fst kn)) sz acc
    = (acc * size_of sz + offset sz idx)%nat.
Proof.
  unfold offset. revert acc. induction sz as [|[k n] sz IH]; intros acc.
  - cbn. lia.
  - cbn [fold_left fst snd]. rewrite size_of_cons.
    rewrite (IH (acc * n + coord idx k)%nat), (IH (0 * n + coord idx k)%nat). lia.
Qed.

Lemma offset_cons (d : string) (n : nat) (sz idx : list (string * nat)) :
  offset ((d, n) :: sz) idx = (coord idx d * size_of sz + offset sz idx)%nat.
Proof.
  unfold offset at 1. cbn [fold_left fst snd]. rewrite offset_from. lia.
Qed.

Lemma offset_ext (sz idx1 idx2 : list (string * nat)) :
  (forall k, In k (map fst sz) -> coord idx1 k = coord idx2 k) ->
  offset sz idx1 = offset sz idx2.
Proof.
  induction sz as [|[k n] sz IH]; intros H; [reflexivity|].
  rewrite !offset_cons. rewrite (H k) by (left; reflexivity).
  rewrite IH; [reflexivity|]. intros k' Hk'. apply H. now right.
Qed.

Lemma nth_flat_map_block {A} (g : nat -> list A) (c : nat) (d : A) (n s i j : nat) :
  (forall k, length (g k) = c) ->
  (i < n)%nat -> (j < c)%nat ->
  nth (i * c + j) (flat_map g (seq s n)) d = nth j (g (s + i)%nat) d.
Proof.
  intros Hlen. revert s i. induction n as [|n IH]; intros s i Hi Hj; [lia|].
  cbn [seq flat_map]. destruct i as [|i].
  - rewrite app_nth1 by (rewrite Hlen; lia). now rewrite Nat.add_0_r.
  - rewrite app_nth2 by (rewrite Hlen; lia). rewrite Hlen.
    replace (S i * c + j - c)%nat with (i * c + j)%nat by lia.
    rewrite IH by lia. f_equal. f_equal. lia.
Qed.

Lemma offset_app (l1 l2 idx : list (string * nat)) :
  offset (l1 ++ l2) idx = (offset l1 idx * size_of l2 + offset l2 idx)%nat.
Proof.
  unfold offset at 1. rewrite fold_left_app. apply offset_from.
Qed.

(** The index of [target] at the offset that the coordinates of [idx] give
    is [idx] read along [target]. *)
Lemma nth_indices_coord (target idx : list (string * nat)) :
  (forall k n, In (k, n) target -> (coord idx k < n)%nat) ->
  nth (offset target idx) (indices target) []
    = map (fun kn => (fst kn, coord idx (fst kn))) target.
Proof.
  induction target as [|[d n] target IH]; intros Hb; [reflexivity|].
  rewrite offset_cons. cbn [indices map fst].
  assert (Hj : (offset target idx < size_of target)%nat).
  { apply offset_bound. intros k m Hkm. apply Hb. now right. }
  rewrite (nth_flat_map_block _ (size_of target));
    [| intros k; now rewrite length_map, length_indices
     | apply Hb; now left
     | exact Hj].
  cbn [Nat.add].
  rewrite (nth_indep _ [] ((d, coord idx d) :: []))
    by (now rewrite length_map, length_indices).
  rewrite (map_nth (cons (d, coord idx d))). f_equal.
  apply IH. intros k m Hkm. apply Hb. now right.
Qed.

Lemma coord_map (target idx : list (string * nat)) (k : string) :
  In k (map fst target) ->
  coord (map (fun kn => (fst kn, coord idx (fst kn))) target) k = coord idx k.
Proof.
  induction target as [|[d n] target IH]; intros Hin; [destruct Hin|].
  cbn [map fst coord]. destruct (String.eqb d k) eqn:E.
  - apply String.eqb_eq in E. now subst.
  - apply IH. destruct Hin as [Hd|Hin]; [|exact Hin].
    cbn in Hd. subst. rewrite String.eqb_refl in E. discriminate E.
Qed.

Lemma nth_repeat_lt {A} (x d : A) (n i : nat) :
  (i < n)%nat -> nth i (repeat x n) d = x.
Proof.
  revert i. induction n as [|n IH]; intros i Hi; [lia|].
  destruct i; [reflexivity|]. simpl. apply IH. lia.
Qed.

Lemma map_constant {A B} (f : A -> B) (y : B) (l : list A) :
  (forall x, In x l -> f x = y) -> map f l = repeat y (length l).
Proof.
  induction l as [|x l IH]; intros H; [reflexivity|].
  simpl. rewrite (H x) by (left; reflexivity). f_equal. apply IH. intros z Hz. apply H. now right.
Qed.

Lemma filter_none {A} (f : A -> bool) (l : list A) :
  (forall x, In x l -> f x = false) -> List.filter f l = [].
Proof.
  induction l as [|x l IH]; intros H; [reflexivity|].
  simpl. rewrite (H x) by (left; reflexivity). apply IH. intros y Hy. apply H. now right.
Qed.

(** Laying an array of ones out along dimensions that include its own gives
    ones again. *)
Lemma reindex_ones (target ws : list (string * nat)) :
  NoDup (map fst target) ->
  (forall k n, In (k, n) ws -> In (k, n) target) ->
  reindex target (ones_over ws) = ones_over target.
Proof.
  intros Hnd Hsub. unfold reindex, ones_over. f_equal.
  rewrite <- (length_indices target). apply map_constant. intros idx Hidx.
  unfold item. cbn [sizes values]. apply nth_repeat_lt. apply offset_bound.
  intros k n Hin. apply (coord_bound target); auto.
Qed.

Lemma in_dims (a : DataArray) (k : string) :
  In k (dims a) <-> exists n, In (k, n) (sizes a).
Proof.
  unfold dims. rewrite in_map_iff. split.
  - intros [[k' n] [E Hin]]. cbn in E. subst k'. eauto.
  - intros [n Hin]. exists (k, n). auto.
Qed.

Lemma size_along_lookup (a : DataArray) (k : string) (n : nat) :
  NoDup (dims a) -> In (k, n) (sizes a) -> size_along a k = n.
Proof.
  unfold size_along, dims. induction (sizes a) as [|[d n0] sz IH]; intros Hnd Hin; [destruct Hin|].
  cbn [map fst] in Hnd. apply NoDup_cons in Hnd as [Hd Hnd].
  cbn [find fst]. destruct Hin as [E|Hin].
  - injection E as -> ->. now rewrite String.eqb_refl.
  - destruct (String.eqb d k) eqn:E.
    + apply String.eqb_eq in E. subst d. exfalso. apply Hd.
      apply list_elem_of_In. apply in_map_iff. exists (k, n). auto.
    + apply IH; assumption.
Qed.

Lemma NoDup_keys_filter {V} (f : string * V -> bool) (l : list (string * V)) :
  NoDup (map fst l) -> NoDup (map fst (List.filter f l)).
Proof.
  induction l as [|x l IH]; simpl; intros H; [constructor|].
  apply NoDup_cons in H as [Hx Hl].
  destruct (f x); simpl; auto.
  apply NoDup_cons. split; auto.
  intros Hin. apply Hx. apply list_elem_of_In in Hin. apply list_elem_of_In.
  apply in_map_iff in Hin as [y [E Hy]].
  apply filter_In in Hy as [Hy _]. apply in_map_iff. eauto.
Qed.

Lemma as_dict_lookup (l : list (string * nat)) (k : string) (n : nat) :
  NoDup (map fst l) -> In (k, n) l -> as_dict l !! k = Some n.
Proof.
  intros Hnd Hin. unfold as_dict. apply elem_of_list_to_map_1.
  - exact Hnd.
  - apply list_elem_of_In. exact Hin.
Qed.

Lemma as_dict_lookup_inv (l : list (string * nat)) (k : string) (n : nat) :
  as_dict l !! k = Some n -> In (k, n) l.
Proof.
  intros H. apply list_elem_of_In. apply elem_of_list_to_map_2. exact H.
Qed.

(** A sub-mapping cut out of the sizes of [a] by a filter that is equal to
    them as a dict is the whole list. *)
Lemma filter_same_dict (f : string * nat -> bool) (sz : list (string * nat)) :
  NoDup (map fst sz) ->
  as_dict (List.filter f sz) = as_dict sz ->
  List.filter f sz = sz.
Proof.
  intros Hnd Heq. apply forallb_filter_id. apply forallb_forall. intros [k n] Hin.
  pose proof (as_dict_lookup sz k n Hnd Hin) as Hl. rewrite <- Heq in Hl.
  apply as_dict_lookup_inv in Hl. apply filter_In in Hl. tauto.
Qed.

(** ** Engine operations *)

(** The engine operations at work on a small array. *)
Example stack_in_listed_order :
  xr.stack "t_lat" ["t"; "lat"] Examples.grid
    = Ok {| sizes := [("t_lat", 6%nat)]; values := map Examples.num [1; 2; 3; 4; 5; 6]%Z |}
  /\ xr.stack "lat_t" ["lat"; "t"] Examples.grid
    = Ok {| sizes := [("lat_t", 6%nat)]; values := map Examples.num [1; 4; 2; 5; 3; 6]%Z |}
  /\ xr.stack "t_x" ["t"; "x"] Examples.grid = Raise (XarrayError "stack").
Proof. repeat split; vm_compute; reflexivity. Qed.

Example isel0_first_positions :
  xr.isel0 Examples.grid ["t"]
    = Ok {| sizes := [("lat", 3%nat)]; values := map Examples.num [1; 2; 3]%Z |}
  /\ xr.isel0 Examples.grid ["lat"]
    = Ok {| sizes := [("t", 2%nat)]; values := map Examples.num [1; 4]%Z |}.
Proof. repeat split; vm_compute; reflexivity. Qed.

Example broadcast_repeats_weights :
  xr.broadcast Examples.grid
    {| sizes := [("lat", 3%nat)]; values := map Examples.num [7; 8; 9]%Z |}
    = Ok {| sizes := [("t", 2%nat); ("lat", 3%nat)];
            values := map Examples.num [7; 8; 9; 7; 8; 9]%Z |}.
Proof. vm_compute. reflexivity. Qed.

Example max_skips_nan :
  xr.max {| sizes := [("time", 3%nat)]; values := [Num 1; NaN; Num 3] |} = Ok (Num 3)
  /\ xr.min {| sizes := [("time", 3%nat)]; values := [Num 1; NaN; Num 3] |} = Ok (Num 1)
  /\ xr.max {| sizes := [("time", 0%nat)]; values := [] |} = Raise (XarrayError "max").
Proof. repeat split; vm_compute; reflexivity. Qed.

Lemma max_not_empty (w : DataArray) :
  values w <> [] -> xr.max w = Ok (nan_reduce vmax (values w)).
Proof. unfold xr.max. destruct (values w); [contradiction | reflexivity]. Qed.

Lemma min_not_empty (w : DataArray) :
  values w <> [] -> xr.min w = Ok (nan_reduce vmin (values w)).
Proof. unfold xr.min. destruct (values w); [contradiction | reflexivity]. Qed.

Lemma div_not_empty (w : DataArray) (m : val) :
  values w <> [] -> values (xr.div w m) <> [].
Proof. cbn [xr.div values]. destruct (values w); [contradiction | discriminate]. Qed.

Lemma ones_not_empty (rs : list (string * nat)) :
  size_of rs <> 0%nat -> values (ones_over rs) <> [].
Proof. cbn [ones_over values]. destruct (size_of rs); [contradiction | discriminate]. Qed.

Lemma div_ones (rs : list (string * nat)) :
  xr.div (ones_over rs) one = ones_over rs.
Proof.
  unfold xr.div, ones_over. cbn [sizes values]. now rewrite map_repeat.
Qed.

Lemma isel0_sizes (a sel : DataArray) (drop : list string) :
  xr.isel0 a drop = Ok sel ->
  sizes sel = List.filter (fun kn => negb (list_in (fst kn) drop)) (sizes a).
Proof.
  unfold xr.isel0. destruct (existsb _ _); intros H; [discriminate|].
  injection H as <-. reflexivity.
Qed.

(** The representative slice exists when every collapsed dimension has a
    position 0. *)
Lemma isel0_ok (a : DataArray) (drop : list string) :
  (forall k n, In (k, n) (sizes a) -> In k drop -> n <> 0%nat) ->
  xr.isel0 a drop
    = Ok (reindex (List.filter (fun kn => negb (list_in (fst kn) drop)) (sizes a)) a).
Proof.
  intros Hpos. unfold xr.isel0.
  destruct (existsb _ _) eqn:E; [|reflexivity].
  apply existsb_exists in E as [[k n] [Hin H]]. cbn [fst snd] in H.
  apply andb_true_iff in H as [Hk H]. apply Nat.eqb_eq in H. apply list_in_iff in Hk.
  exfalso. exact (Hpos k n Hin Hk H).
Qed.

(** An array with at least one entry has every representative slice. *)
Lemma isel0_not_empty (a : DataArray) (drop : list string) :
  size_of (sizes a) <> 0%nat ->
  xr.isel0 a drop
    = Ok (reindex (List.filter (fun kn => negb (list_in (fst kn) drop)) (sizes a)) a).
Proof.
  intros Hne. apply isel0_ok. intros k n Hin _.
  exact (size_of_positive _ (k, n) Hne Hin).
Qed.

Lemma stack_raises (new_dim : string) (names : list string) (x : DataArray) (e : exn) :
  xr.stack new_dim names x = Raise e -> e = XarrayError "stack".
Proof.
  unfold xr.stack. destruct (_ && _); intros H; [discriminate | now injection H].
Qed.

(** What a successful stacking did. *)
Lemma stack_ok (new_dim : string) (names : list string) (x sx : DataArray) :
  xr.stack new_dim names x = Ok sx ->
  (forall d, In d names -> In d (dims x))
  /\ NoDup names
  /\ ~ In new_dim (dims x)
  /\ sizes sx
       = List.filter (fun kn => negb (list_in (fst kn) names)) (sizes x)
         ++ [(new_dim, size_of (map (fun d => (d, size_along x d)) names))].
Proof.
  unfold xr.stack.
  destruct (forallb _ names) eqn:H1; [|discriminate].
  destruct (bool_decide (NoDup names)) eqn:H2; [|discriminate].
  destruct (list_in new_dim (dims x)) eqn:H3; [discriminate|].
  cbn [andb negb]. intros H. injection H as <-. cbn [sizes].
  repeat split.
  - intros d Hd. rewrite forallb_forall in H1. apply list_in_iff. auto.
  - apply bool_decide_eq_true in H2. exact H2.
  - rewrite <- list_in_iff. congruence.
Qed.

(** Stacking weights of ones over the reduction dimensions gives ones over
    the stacked dimension. *)
Lemma stack_ones (a : DataArray) (new_dim : string) (names : list string) :
  NoDup (dims a) ->
  (forall d, In d names -> In d (dims a)) ->
  NoDup names ->
  ~ In new_dim (dims a) ->
  xr.stack new_dim names (ones_over (restrict_sizes a names))
    = Ok (ones_over [(new_dim, size_of (map (fun d => (d, size_along a d)) names))]).
Proof.
  intros Hnd Hsub Hnames Hnew.
  set (w := ones_over (restrict_sizes a names)).
  assert (Hw : forall k n, In (k, n) (sizes w) <-> In (k, n) (sizes a) /\ In k names).
  { intros k n. cbn [w ones_over sizes]. unfold restrict_sizes.
    rewrite filter_In. cbn [fst]. now rewrite list_in_iff. }
  assert (Hndw : NoDup (dims w)).
  { unfold dims. cbn [w ones_over sizes]. apply NoDup_keys_filter. exact Hnd. }
  assert (Hsize : forall d, In d names -> size_along w d = size_along a d).
  { intros d Hd. destruct (proj1 (in_dims a d) (Hsub d Hd)) as [n Hn].
    rewrite (size_along_lookup a d n Hnd Hn).
    apply size_along_lookup; [exact Hndw|]. apply Hw. auto. }
  unfold xr.stack.
  assert (H1 : forallb (fun d => list_in d (dims w)) names = true).
  { apply forallb_forall. intros d Hd. apply list_in_iff.
    destruct (proj1 (in_dims a d) (Hsub d Hd)) as [n Hn].
    apply in_dims. exists n. apply Hw. auto. }
  assert (H3 : list_in new_dim (dims w) = false).
  { apply not_true_is_false. rewrite list_in_iff. intros H.
    apply in_dims in H as [n Hn]. apply Hw in Hn as [Hn _].
    apply Hnew. apply in_dims. eauto. }
  rewrite H1, H3, (bool_decide_eq_true_2 _ Hnames). cbn [andb negb]. cbv zeta.
  assert (Hothers : List.filter (fun kn => negb (list_in (fst kn) names)) (sizes w) = []).
  { apply filter_none. intros [k n] Hin. apply Hw in Hin as [_ Hk]. cbn [fst].
    apply negb_false_iff. now apply list_in_iff. }
  rewrite Hothers. cbn [app].
  rewrite (map_ext_in _ (fun d => (d, size_along a d))) by (intros d Hd; now rewrite Hsize).
  set (picked := map (fun d => (d, size_along a d)) names).
  unfold w. rewrite reindex_ones.
  - unfold ones_over. cbn [values]. rewrite (size_of_cons new_dim).
    change (size_of []) with 1%nat. now rewrite Nat.mul_1_r.
  - unfold picked. rewrite map_map. cbn [fst]. now rewrite map_id.
  - intros k n Hin. apply (Hw k n) in Hin as [Hin Hk]. unfold picked.
    apply in_map_iff. exists k. split; [|exact Hk].
    now rewrite (size_along_lookup a k n Hnd Hin).
Qed.




Lemma offset_picked (x : DataArray) (names : list string) (idx : list (string * nat)) :
  offset (map (fun d => (d, size_along x d)) names) idx = flat_index x names idx.
Proof.
  unfold offset, flat_index. generalize 0%nat.
  induction names as [|d names IH]; intros acc; [reflexivity|].
  cbn [map fold_left fst snd]. apply IH.
Qed.

Lemma size_of_picked (x : DataArray) (names : list string) :
  size_of (map (fun d => (d, size_along x d)) names)
    = fold_right Nat.mul 1%nat (map (size_along x) names).
Proof.
  unfold size_of. rewrite map_map. reflexivity.
Qed.

(** What the stacked array holds: the listed dimensions combined in their
    listed order into the new trailing dimension. *)
Lemma stack_spec (new_dim : string) (names : list string) (x sx : DataArray) :
  NoDup (dims x) ->
  xr.stack new_dim names x = Ok sx ->
  stacked_from new_dim names x sx.
Proof.
  intros Hnd Hs.
  destruct (stack_ok _ _ _ _ Hs) as (Hsub & Hnames & Hnew & Hsizes).
  unfold xr.stack in Hs. destruct (_ && _); [|discriminate Hs].
  cbv zeta in Hs. injection Hs as <-. cbn [sizes values] in *.
  set (others := List.filter (fun kn => negb (list_in (fst kn) names)) (sizes x)) in *.
  set (picked := map (fun d => (d, size_along x d)) names) in *.
  split; [|split].
  - unfold picked. now rewrite size_of_picked.
  - cbn [reindex sizes values].
    rewrite length_map, length_indices, !size_of_app, size_of_cons.
    change (size_of []) with 1%nat. lia.
  - intros idx Hidx. unfold item at 1. cbn [sizes values reindex].
    assert (Hbound : forall k n, In (k, n) (others ++ picked) -> (coord idx k < n)%nat).
    { intros k n Hin. apply in_app_iff in Hin as [Hin|Hin].
      - apply filter_In in Hin as [Hin _]. now apply (coord_bound (sizes x)).
      - apply in_map_iff in Hin as [d [E Hd]]. injection E as -> <-.
        destruct (proj1 (in_dims x k) (Hsub k Hd)) as [n Hn].
        rewrite (size_along_lookup x k n Hnd Hn). now apply (coord_bound (sizes x)). }
    assert (Hpos : offset (others ++ [(new_dim, size_of picked)])
                     ((new_dim, flat_index x names idx) :: idx)
                   = offset (others ++ picked) idx).
    { rewrite !offset_app.
      pose proof (offset_picked x names idx) as Hp. fold picked in Hp. rewrite Hp. f_equal.
      - f_equal.
        + apply offset_ext. intros k Hk. cbn [coord].
          destruct (String.eqb new_dim k) eqn:E; [|reflexivity].
          apply String.eqb_eq in E. subst k. exfalso. apply Hnew.
          apply in_map_iff in Hk as [[k n] [E Hin]]. cbn in E. subst k.
          apply filter_In in Hin as [Hin _]. apply in_dims. eauto.
        + rewrite size_of_cons. change (size_of []) with 1%nat. lia.
      - rewrite offset_cons. change (size_of []) with 1%nat. change (offset [] _) with 0%nat.
        cbn [coord]. rewrite String.eqb_refl. lia. }
    rewrite Hpos.
    assert (Hlt : (offset (others ++ picked) idx < length (indices (others ++ picked)))%nat).
    { rewrite length_indices. now apply offset_bound. }
    rewrite (nth_indep _ NaN (item x [])) by (now rewrite length_map).
    rewrite (map_nth (item x)). rewrite (nth_indices_coord _ idx Hbound).
    unfold item. f_equal. apply offset_ext. intros k Hk. apply coord_map.
    rewrite map_app. apply in_app_iff.
    destruct (list_in k names) eqn:E.
    + right. unfold picked. rewrite map_map. cbn [fst]. rewrite map_id.
      now apply list_in_iff.
    + left. apply in_map_iff in Hk as [[k' n] [Ek Hin]]. cbn in Ek. subst k'.
      apply in_map_iff. exists (k, n). split; [reflexivity|].
      apply filter_In. split; [exact Hin|]. cbn [fst]. now rewrite E.
Qed.

Lemma stack_succeeds (new_dim : string) (names : list string) (x : DataArray) :
  can_stack new_dim names x -> exists sx, xr.stack new_dim names x = Ok sx.
Proof.
  intros (Hsub & Hnames & Hnew). unfold xr.stack.
  assert (H1 : forallb (fun d => list_in d (dims x)) names = true).
  { apply forallb_forall. intros d Hd. apply list_in_iff. auto. }
  assert (H3 : list_in new_dim (dims x) = false).
  { apply not_true_is_false. now rewrite list_in_iff. }
  rewrite H1, H3, (bool_decide_eq_true_2 _ Hnames). cbn [andb negb]. eauto.
Qed.

Lemma stack_fails (new_dim : string) (names : list string) (x : DataArray) :
  ~ can_stack new_dim names x -> xr.stack new_dim names x = Raise (XarrayError "stack").
Proof.
  intros Hno. destruct (xr.stack new_dim names x) as [sx|e] eqn:E.
  - exfalso. apply Hno. destruct (stack_ok _ _ _ _ E) as (H1 & H2 & H3 & _).
    repeat split; assumption.
  - now rewrite (stack_raises _ _ _ _ E).
Qed.

(** ** The weight preprocessor *)

Lemma in_drop_dims (a : DataArray) (new_dim : dim_arg) (d : string) :
  In d (drop_dims a new_dim) <-> In d (dims a) /\ py_in d new_dim = false.
Proof.
  unfold drop_dims. rewrite filter_In, negb_true_iff. reflexivity.
Qed.

(** With a list as [new_dim], the slice keeps exactly the listed
    dimensions. *)
Lemma kept_sizes_list (a : DataArray) (names : list string) :
  List.filter (fun kn => negb (list_in (fst kn) (drop_dims a (DimList names)))) (sizes a)
    = restrict_sizes a names.
Proof.
  unfold restrict_sizes. apply filter_ext_in. intros [k n] Hin. cbn [fst].
  destruct (list_in k names) eqn:E.
  - apply negb_true_iff. apply not_true_is_false. rewrite list_in_iff, in_drop_dims.
    cbn [py_in]. intros [_ H]. congruence.
  - apply negb_false_iff. apply list_in_iff. apply in_drop_dims. split; [|exact E].
    unfold dims. apply in_map_iff. exists (k, n). split; [reflexivity | exact Hin].
Qed.

(** With a [str] as [new_dim], the slice keeps exactly that dimension when
    no other name of [a] occurs inside it. *)
Lemma kept_sizes_str (a : DataArray) (s : string) :
  (forall k, In k (dims a) -> k <> s -> str_in k s = false) ->
  List.filter (fun kn => negb (list_in (fst kn) (drop_dims a (DimStr s)))) (sizes a)
    = restrict_sizes a [s].
Proof.
  intros Hclash. unfold restrict_sizes. apply filter_ext_in. intros [k n] Hin. cbn [fst].
  assert (Hk : In k (dims a)).
  { unfold dims. apply in_map_iff. exists (k, n). split; [reflexivity | exact Hin]. }
  destruct (list_in k [s]) eqn:E.
  - apply list_in_iff in E. destruct E as [<-|[]].
    apply negb_true_iff. apply not_true_is_false. rewrite list_in_iff, in_drop_dims.
    cbn [py_in]. rewrite str_in_refl. intros [_ H]. discriminate.
  - apply negb_false_iff. apply list_in_iff. apply in_drop_dims. split; [exact Hk|].
    cbn [py_in]. apply Hclash; [exact Hk|].
    intros ->. unfold list_in in E. cbn in E. rewrite String.eqb_refl in E. discriminate.
Qed.

(** The stacked array inherits what the weight preprocessor needs. *)
Lemma stacked_array (a sa : DataArray) (names : list string) :
  let new_dim := String.concat "_" names in
  NoDup (dims a) ->
  size_of (sizes a) <> 0%nat ->
  (forall k, In k (dims a) -> ~ In k names -> str_in k new_dim = false) ->
  xr.stack new_dim names a = Ok sa ->
  NoDup (dims sa)
  /\ size_of (sizes sa) <> 0%nat
  /\ no_substring_clash new_dim sa
  /\ restrict_sizes sa [new_dim]
       = [(new_dim, size_of (map (fun d => (d, size_along a d)) names))].
Proof.
  intros new_dim Hnd Hne Hclash Ha.
  destruct (stack_ok _ _ _ _ Ha) as (Hsub & Hnames & Hnew & Hsizes).
  set (others := List.filter (fun kn => negb (list_in (fst kn) names)) (sizes a)) in *.
  set (P := size_of (map (fun d => (d, size_along a d)) names)) in *.
  assert (Hothers : forall k n, In (k, n) others -> In k (dims a) /\ ~ In k names).
  { intros k n Hin. apply filter_In in Hin as [Hin Hk]. cbn [fst] in Hk. split.
    - apply in_dims. eauto.
    - rewrite <- list_in_iff. apply negb_true_iff in Hk. congruence. }
  repeat split.
  - unfold dims. rewrite Hsizes, map_app. cbn [map fst]. apply NoDup_app. repeat split.
    + apply NoDup_keys_filter. exact Hnd.
    + intros k Hk Hk'. apply list_elem_of_In in Hk, Hk'. destruct Hk' as [<-|[]].
      apply in_map_iff in Hk as [[k n] [E Hin]]. cbn in E. subst k.
      apply Hnew. apply (Hothers _ _ Hin).
    + apply NoDup_singleton.
  - rewrite Hsizes, size_of_app, size_of_cons. change (size_of []) with 1%nat.
    assert (H1 : size_of others <> 0%nat) by (apply size_of_filter; exact Hne).
    assert (H2 : P <> 0%nat).
    { apply size_of_not_zero. intros kn Hin. apply in_map_iff in Hin as [d [<- Hd]]. cbn [snd].
      destruct (proj1 (in_dims a d) (Hsub d Hd)) as [n Hn].
      rewrite (size_along_lookup a d n Hnd Hn).
      exact (size_of_positive _ _ Hne Hn). }
    nia.
  - intros k Hk Hneq. apply in_dims in Hk as [n Hn]. rewrite Hsizes in Hn.
    apply in_app_iff in Hn as [Hn|[E|[]]].
    + destruct (Hothers _ _ Hn). auto.
    + injection E as E _. congruence.
  - unfold restrict_sizes. rewrite Hsizes, List.filter_app.
    rewrite (filter_none _ others).
    + cbn [List.filter fst app]. unfold list_in. cbn. now rewrite String.eqb_refl.
    + intros [k n] Hin. cbn [fst]. apply not_true_is_false. rewrite list_in_iff.
      intros [<-|[]]. apply Hnew. apply (Hothers _ _ Hin).
Qed.


(** The message of the size check shows [dim] and the two size mappings. *)
Lemma size_mismatch_msg_contains (dim : dim_arg) (ws szs : list (string * nat)) :
  str_in (fmt_dim dim) (size_mismatch_msg dim ws szs) = true
  /\ str_in (repr_dict ws) (size_mismatch_msg dim ws szs) = true
  /\ str_in (repr_dict szs) (size_mismatch_msg dim ws szs) = true.
Proof.
  unfold size_mismatch_msg. repeat split; apply str_in_iff.
  - eexists _, _. reflexivity.
  - exists ("weights dimension(s) " +:+ fmt_dim dim +:+ " of size "),
      (" " +:+ "does not match DataArray's size " +:+ repr_dict szs).
    rewrite !append_assoc. reflexivity.
  - exists ("weights dimension(s) " +:+ fmt_dim dim +:+ " of size " +:+ repr_dict ws +:+ " " +:+
            "does not match DataArray's size "), EmptyString.
    rewrite append_nil_r, !append_assoc. reflexivity.
Qed.

(** What an accepted weights array went through: its maximum and the
    minimum of the normalized array exist, that minimum is not below zero,
    the representative slice of [a] exists, and the two size mappings are
    equal as dicts. *)
Lemma preprocess_weights_accepts (a w r : DataArray) (dim new_dim : dim_arg) :
  _preprocess_weights a dim new_dim (Some w) = Ok r ->
  exists m lo sel,
    xr.max w = Ok m
    /\ xr.min (xr.div w m) = Ok lo
    /\ vltb lo zero = false
    /\ xr.isel0 a (drop_dims a new_dim) = Ok sel
    /\ as_dict (sizes w) = as_dict (sizes sel).
Proof.
  unfold _preprocess_weights.
  destruct (xr.max w) as [m|] eqn:Hmax; [|discriminate]. cbn [Py.bind].
  destruct (xr.min (xr.div w m)) as [lo|] eqn:Hmin; [|discriminate]. cbn [Py.bind].
  destruct (vltb lo zero) eqn:Hlo; [discriminate|].
  destruct (xr.isel0 a (drop_dims a new_dim)) as [sel|] eqn:Hsel; [|discriminate].
  cbn [Py.bind].
  destruct (bool_decide _) eqn:Hne; [discriminate|].
  intros _. exists m, lo, sel. repeat split; try assumption.
  apply bool_decide_eq_false in Hne. cbn [xr.div sizes] in Hne.
  destruct (decide (as_dict (sizes w) = as_dict (sizes sel))) as [E|E]; [exact E|].
  contradiction.
Qed.

(** The size check proper: weights that pass the negative-value check and
    whose size mapping differs from that of the slice are refused. *)
Lemma preprocess_weights_mismatch (a w nw : DataArray) (dim new_dim : dim_arg) (lo : val)
    (kept : list (string * nat)) :
  normalized w = Ok nw ->
  xr.min nw = Ok lo ->
  vltb lo zero = false ->
  (forall k n, In (k, n) (sizes a) -> In k (drop_dims a new_dim) -> n <> 0%nat) ->
  List.filter (fun kn => negb (list_in (fst kn) (drop_dims a new_dim))) (sizes a) = kept ->
  as_dict (sizes w) <> as_dict kept ->
  _preprocess_weights a dim new_dim (Some w)
    = Raise (ValueError (size_mismatch_msg dim (sizes w) kept)).
Proof.
  intros Hnorm Hmin Hlo Hpos Hkept Hdiff.
  unfold normalized in Hnorm. unfold _preprocess_weights.
  destruct (xr.max w) as [m|]; [|discriminate]. cbn [Py.bind] in Hnorm |- *.
  injection Hnorm as <-. rewrite Hmin. cbn [Py.bind]. rewrite Hlo.
  rewrite (isel0_ok a _ Hpos). cbn [Py.bind reindex sizes xr.div].
  rewrite Hkept. rewrite bool_decide_eq_true_2 by exact Hdiff. reflexivity.
Qed.

(** Weights of ones over the dimensions the slice keeps are accepted and
    come back as the ones the preprocessor makes up when there are no
    weights. *)
Lemma preprocess_ones (a : DataArray) (dim new_dim : dim_arg) :
  NoDup (dims a) ->
  size_of (sizes a) <> 0%nat ->
  let kept :=
    List.filter (fun kn => negb (list_in (fst kn) (drop_dims a new_dim))) (sizes a) in
  _preprocess_weights a dim new_dim (Some (ones_over kept)) = Ok (xr.ones_like a).
Proof.
  intros Hnd Hne kept.
  assert (Hkept : size_of kept <> 0%nat) by (apply size_of_filter; exact Hne).
  unfold _preprocess_weights.
  rewrite (max_not_empty _ (ones_not_empty kept Hkept)). cbn [Py.bind].
  change (values (ones_over kept)) with (repeat one (size_of kept)).
  rewrite (nan_reduce_ones vmax _ vmax_pick Hkept).
  rewrite div_ones.
  rewrite (min_not_empty _ (ones_not_empty kept Hkept)). cbn [Py.bind].
  change (values (ones_over kept)) with (repeat one (size_of kept)).
  rewrite (nan_reduce_ones vmin _ vmin_pick Hkept).
  change (vltb one zero) with false. cbv iota.
  rewrite (isel0_not_empty a _ Hne). cbn [Py.bind reindex sizes ones_over].
  fold kept. rewrite bool_decide_eq_false_2 by (intros H; now apply H).
  destruct (bool_decide (as_dict kept <> as_dict (sizes a))) eqn:Hfull.
  - unfold xr.broadcast.
    assert (Hsub : forall k n, In (k, n) kept -> In (k, n) (sizes a)).
    { intros k n Hin. apply filter_In in Hin. tauto. }
    assert (Hin_dims : forall k n, In (k, n) kept -> list_in k (dims a) = true).
    { intros k n Hin. apply list_in_iff. unfold dims. apply in_map_iff.
      exists (k, n). split; [reflexivity | auto]. }
    assert (Hcheck : forallb (fun kn => negb (list_in (fst kn) (dims a))
                                        || (size_along a (fst kn) =? snd kn)%nat)
                       (sizes (ones_over kept)) = true).
    { apply forallb_forall. intros [k n] Hin. cbn [fst snd].
      apply orb_true_iff. right. apply Nat.eqb_eq.
      apply size_along_lookup; auto. }
    rewrite Hcheck.
    assert (Hnone : List.filter (fun kn => negb (list_in (fst kn) (dims a)))
                      (sizes (ones_over kept)) = []).
    { cbn [ones_over sizes].
      rewrite <- (filter_ext_in (fun _ => false)).
      - clear. induction kept; simpl; auto.
      - intros [k n] Hin. cbn [fst]. symmetry. apply negb_false_iff. eauto. }
    rewrite Hnone, app_nil_r. f_equal.
    rewrite reindex_ones; [reflexivity | exact Hnd | exact Hsub].
  - apply bool_decide_eq_false in Hfull.
    destruct (decide (as_dict kept = as_dict (sizes a))) as [E|E]; [|contradiction].
    unfold kept in E |- *. rewrite (filter_same_dict _ _ Hnd E). reflexivity.
Qed.

Lemma dict_keys (l1 l2 : list (string * nat)) (k : string) :
  as_dict l1 = as_dict l2 -> In k (map fst l1) -> In k (map fst l2).
Proof.
  intros Heq Hin. apply list_elem_of_In.
  destruct (decide (k ∈ map fst l2)) as [H|H]; [exact H|].
  apply (not_elem_of_list_to_map_1 (M := gmap string) l2 k) in H.
  change (as_dict l2 !! k = None) in H. rewrite <- Heq in H.
  apply (not_elem_of_list_to_map_2 (M := gmap string) l1 k) in H.
  exfalso. apply H. apply list_elem_of_In. exact Hin.
Qed.

Lemma broadcast_ok (a w r : DataArray) :
  xr.broadcast a w = Ok r ->
  r = reindex (sizes a ++ List.filter (fun kn => negb (list_in (fst kn) (dims a))) (sizes w)) w.
Proof.
  unfold xr.broadcast. destruct (forallb _ _); intros H; [|discriminate H].
  now injection H as <-.
Qed.

(** Weights the preprocessor returns are laid out like [a], or are the
    normalized weights themselves when their size mapping is that of [a]. *)
Lemma preprocess_weights_result (a w r : DataArray) (dim new_dim : dim_arg) :
  _preprocess_weights a dim new_dim (Some w) = Ok r ->
  exists m,
    xr.max w = Ok m
    /\ (r = reindex (sizes a) (xr.div w m)
        \/ (r = xr.div w m /\ as_dict (sizes w) = as_dict (sizes a))).
Proof.
  intros Hok.
  pose proof (preprocess_weights_accepts a w r dim new_dim Hok)
    as (m & lo & sel & Hmax & Hmin & Hlo & Hsel & Heq).
  exists m. split; [exact Hmax|].
  unfold _preprocess_weights in Hok. rewrite Hmax in Hok. cbn [Py.bind] in Hok.
  rewrite Hmin in Hok. cbn [Py.bind] in Hok. rewrite Hlo, Hsel in Hok. cbn [Py.bind] in Hok.
  rewrite bool_decide_eq_false_2 in Hok by (cbn [xr.div sizes]; intros H; now apply H).
  destruct (bool_decide _) eqn:Hfull.
  - left. apply broadcast_ok in Hok. rewrite Hok. f_equal.
    rewrite filter_none; [apply app_nil_r|].
    intros [k n] Hin. cbn [fst xr.div sizes] in *. apply negb_false_iff. apply list_in_iff.
    assert (Hk : In k (map fst (sizes sel))).
    { apply (dict_keys (sizes w)); [exact Heq|]. apply in_map_iff.
      exists (k, n). split; [reflexivity | exact Hin]. }
    rewrite (isel0_sizes _ _ _ Hsel) in Hk. apply in_map_iff in Hk as [[k' n'] [E Hk]].
    cbn in E. subst k'. apply filter_In in Hk as [Hk _]. apply in_dims. eauto.
  - right. injection Hok as <-. split; [reflexivity|].
    apply bool_decide_eq_false in Hfull. cbn [xr.div sizes] in Hfull.
    destruct (decide (as_dict (sizes w) = as_dict (sizes a))); [assumption | contradiction].
Qed.


(** Weights that are numbers with a positive maximum: once accepted, every
    normalized entry lies between zero and one. *)
Lemma accepted_within_unit_interval (a w r : DataArray) (dim new_dim : dim_arg) (m : Q) :
  Forall is_number (values w) ->
  xr.max w = Ok (Num m) ->
  (0 < m)%Q ->
  _preprocess_weights a dim new_dim (Some w) = Ok r ->
  Forall (fun x => num_le zero x /\ num_le x one) (values (xr.div w (Num m))).
Proof.
  intros Hnum Hmax Hm Hok.
  assert (Hne : values w <> []).
  { intros E. unfold xr.max in Hmax. rewrite E in Hmax. discriminate Hmax. }
  destruct (preprocess_weights_accepts a w r dim new_dim Hok)
    as (m' & lo & sel & Hmax' & Hmin & Hlo & _).
  rewrite Hmax in Hmax'. injection Hmax' as <-.
  rewrite (min_not_empty _ (div_not_empty w (Num m) Hne)) in Hmin. injection Hmin as Hmin.
  set (nv := values (xr.div w (Num m))).
  assert (Hmin' : nan_reduce vmin nv = lo) by exact Hmin.
  assert (Hnv : Forall is_number nv).
  { apply List.Forall_forall. intros y Hy. apply in_map_iff in Hy as [x [<- Hx]].
    rewrite List.Forall_forall in Hnum. specialize (Hnum x Hx).
    destruct x; try contradiction. now rewrite vdiv_number. }
  apply List.Forall_forall. intros y Hy. split.
  - pose proof (nan_reduce_vmin_lower nv y Hnv Hy) as Hle. rewrite Hmin' in Hle.
    destruct lo as [l| | |], y as [q| | |]; try contradiction.
    cbn [vltb zero] in Hlo. apply negb_false_iff in Hlo. apply Qle_bool_iff in Hlo.
    cbn [num_le zero] in *. exact (Qle_trans _ _ _ Hlo Hle).
  - apply in_map_iff in Hy as [x [<- Hx]].
    pose proof (nan_reduce_vmax_upper (values w) x Hnum Hx) as Hle.
    rewrite (max_not_empty w Hne) in Hmax. injection Hmax as Hmax. rewrite Hmax in Hle.
    destruct x as [q| | |]; try contradiction.
    rewrite (vdiv_number q m Hm). cbn [num_le one] in *. rewrite Qred_correct.
    apply Qle_shift_div_r; [exact Hm|]. now rewrite Qmult_1_l.
Qed.

Lemma accepted_within_unit_interval_witness :
  Forall (fun x => num_le zero x /\ num_le x one)
    (values (xr.div Examples.long_positive (Num 4))).
Proof.
  apply (accepted_within_unit_interval
           {| sizes := [("time", 3%nat)]; values := map Examples.num [1; 2; 3]%Z |}
           Examples.long_positive
           {| sizes := [("time", 3%nat)]; values := [Num (1 # 4); Num (1 # 2); Num 1] |}
           (DimList ["time"]) (DimList ["time"]) 4).
  - repeat constructor.
  - vm_compute. reflexivity.
  - reflexivity.
  - vm_compute. reflexivity.
Defined.

(** ** The metric functions *)

(** The two shapes a metric function has. *)
Lemma correlation_unfold (m : metric) (a b : DataArray) (dim : dim_arg)
    (weights : option DataArray) :
  is_correlation m = true ->
  metric_fn m a b dim weights =
    let names := fst (_preprocess_dims dim) in
    if (1 <? length names)%nat then stacked_call (kernel_of m) a b names weights
    else match names with
         | d :: _ => single_call (kernel_of m) a b names d weights
         | [] => Raise IndexError
         end.
Proof.
  intros Hm. destruct m; try discriminate Hm; cbn [metric_fn kernel_of];
    unfold pearson_r, pearson_r_p_value, stacked_call, single_call;
    destruct (_preprocess_dims dim) as [names ax]; cbn [fst];
    (destruct (1 <? length names)%nat;
     [ cbv zeta;
       destruct (xr.stack _ names a) as [sa|e]; [|reflexivity];
       destruct (xr.stack _ names b) as [sb|e]; [|reflexivity];
       destruct weights as [w|]; cbn [Py.bind]; [|reflexivity];
       destruct (xr.stack _ names w) as [sw|e]; reflexivity
     | destruct names; reflexivity ]).
Qed.

Lemma error_unfold (m : metric) (a b : DataArray) (dim : dim_arg)
    (weights : option DataArray) :
  is_correlation m = false ->
  metric_fn m a b dim weights = unstacked_call (kernel_of m) a b dim weights.
Proof.
  intros Hm. destruct m; try discriminate Hm; cbn [metric_fn kernel_of];
    unfold rmse, mse, mae, unstacked_call;
    destruct (_preprocess_dims dim) as [names ax]; reflexivity.
Qed.

(** ** The negative-value check (C1, C4, C9) *)

(** C1, at an array of negative weights: every metric function accepts the
    weights [-1, -2] over a series of two entries and hands the kernel the
    weights [1, 2]; no error is raised. *)
Theorem all_negative_weights_accepted (m : metric) :
  exists c,
    metric_fn m Examples.series Examples.series (DimStr "time") (Some Examples.all_negative)
      = Ok c
    /\ arg_weights c = {| sizes := [("time", 2%nat)]; values := [Num 1; Num 2] |}.
Proof.
  destruct m; vm_compute; eexists; split; reflexivity.
Qed.

(** C4, at the same weights: the preprocessor accepts [-1, -2], and the
    normalized weights it returns are [1, 2], the second entry above 1. *)
Theorem accepted_weights_exceed_one :
  normalized Examples.all_negative
    = Ok {| sizes := [("time", 2%nat)]; values := [Num 1; Num 2] |}
  /\ _preprocess_weights Examples.series (DimList ["time"]) (DimList ["time"])
       (Some Examples.all_negative)
     = Ok {| sizes := [("time", 2%nat)]; values := [Num 1; Num 2] |}
  /\ vltb one (Num 2) = true.
Proof.
  repeat split; vm_compute; reflexivity.
Qed.



(** Weights that are all zero: every quotient is NaN, the minimum is NaN,
    no check fires, and the kernel is handed weights of NaN. *)
Example all_zero_weights_become_nan :
  _preprocess_weights Examples.series (DimList ["time"]) (DimList ["time"])
    (Some Examples.all_zero)
  = Ok {| sizes := [("time", 2%nat)]; values := [NaN; NaN] |}.
Proof. vm_compute. reflexivity. Qed.

(** ** Uniform weights (C2, C8) *)

(** C2, at an array over [t] and [lat] reduced along [lat].  Without
    weights every metric function reaches the kernel with weights of ones.
    With weights of ones over [lat], three entries as in the array, [rmse],
    [mse] and [mae] do the same, but [pearson_r] and [pearson_r_p_value]
    refuse the weights with the size error.  The cause is the test that
    picks the dimensions to collapse: with the name [lat] as a [str] the
    name [t] counts as contained in it and is not collapsed, with the list
    of names it is. *)
Theorem uniform_weights_refused_on_substring (m : metric) :
  (exists c,
     metric_fn m Examples.grid Examples.grid (DimStr "lat") None = Ok c
     /\ arg_weights c = xr.ones_like Examples.grid)
  /\ metric_fn m Examples.grid Examples.grid (DimStr "lat")
       (Some (ones_over (restrict_sizes Examples.grid ["lat"])))
     = (if is_correlation m
        then Raise (ValueError
               "weights dimension(s) ['lat'] of size {'lat': 3} does not match DataArray's size {'t': 2, 'lat': 3}")
        else metric_fn m Examples.grid Examples.grid (DimStr "lat") None)
  /\ drop_dims Examples.grid (DimStr "lat") = []
  /\ drop_dims Examples.grid (DimList ["lat"]) = ["t"].
Proof.
  split; [destruct m; vm_compute; eexists; split; reflexivity|].
  split; [destruct m; vm_compute; reflexivity|].
  split; vm_compute; reflexivity.
Qed.

(** C8: without weights the preprocessor returns the array of ones shaped
    like [a] at once, whatever [a], [dim] and [new_dim] are; no step that
    could raise a validation error runs, and no metric function called
    without weights ends in a [ValueError] of this module. *)
Theorem none_weights_skip_validation (a : DataArray) (dim new_dim : dim_arg) :
  _preprocess_weights a dim new_dim None = Ok (xr.ones_like a)
  /\ sizes (xr.ones_like a) = sizes a
  /\ values (xr.ones_like a) = repeat one (size_of (sizes a))
  /\ forall (m : metric) (b : DataArray) (d : dim_arg) (msg : string),
       metric_fn m a b d None <> Raise (ValueError msg).
Proof.
  repeat split.
  intros m b d msg. destruct (is_correlation m) eqn:Hm.
  - rewrite (correlation_unfold m a b d None Hm). cbv zeta.
    destruct (1 <? length (fst (_preprocess_dims d)))%nat.
    + unfold stacked_call. cbv zeta.
      destruct (xr.stack _ _ a) as [sa|e] eqn:Ea.
      * destruct (xr.stack _ _ b) as [sb|e] eqn:Eb.
        -- cbn. discriminate.
        -- apply stack_raises in Eb. subst e. cbn. discriminate.
      * apply stack_raises in Ea. subst e. cbn. discriminate.
    + destruct (fst (_preprocess_dims d)); [|unfold single_call]; cbn; discriminate.
  - rewrite (error_unfold m a b d None Hm). unfold unstacked_call. cbn. discriminate.
Qed.

(** ** The size check (C3, C10) *)

(** C3 as stated fails where the two checks meet: weights of the wrong
    length with a negative entry next to a positive maximum are refused by
    the negative-value check, which comes first. *)
Lemma size_mismatch_counterexample :
  rmse Examples.series Examples.series (DimStr "time") (Some Examples.long_mixed)
    = Raise (ValueError negative_weights_msg)
  /\ ~ (as_dict (sizes Examples.long_mixed)
          <> as_dict (restrict_sizes Examples.series ["time"]) ->
        rmse Examples.series Examples.series (DimStr "time") (Some Examples.long_mixed)
          = Raise (ValueError (size_mismatch_msg (DimList ["time"])
                     (sizes Examples.long_mixed)
                     (restrict_sizes Examples.series ["time"])))).
Proof.
  split; [vm_compute; reflexivity|].
  intros H.
  assert (Hdiff : as_dict (sizes Examples.long_mixed)
                    <> as_dict (restrict_sizes Examples.series ["time"])) by by_decide.
  specialize (H Hdiff). vm_compute in H. discriminate.
Qed.

(** C3, amended: once the inputs are prepared (stacked by the correlation
    family when there are several reduction dimensions), weights whose
    normalized minimum is not below zero and whose size mapping differs from
    the sizes of [a] along the reduction dimensions are refused with the
    size error; its message shows the list of requested names and both size
    mappings.  Here every dimension of [a] that is not reduced has a
    position 0 and, in the correlation family, no other dimension name
    occurs inside the reduction dimension's name. *)
Theorem size_mismatch_raises (m : metric) (a b w pa pb pw nw : DataArray)
    (dim : dim_arg) (lo : val) :
  let names := fst (_preprocess_dims dim) in
  let kept := restrict_sizes pa (reduced m names) in
  let msg := size_mismatch_msg (DimList names) (sizes pw) kept in
  (is_correlation m = true -> names <> []) ->
  prepared m names a = Ok pa ->
  prepared m names b = Ok pb ->
  prepared m names w = Ok pw ->
  normalized pw = Ok nw ->
  xr.min nw = Ok lo ->
  vltb lo zero = false ->
  (forall k n, In (k, n) (sizes pa) -> ~ In k (reduced m names) -> n <> 0%nat) ->
  (is_correlation m = true -> no_substring_clash (String.concat "_" names) pa) ->
  as_dict (sizes pw) <> as_dict kept ->
  metric_fn m a b dim (Some w) = Raise (ValueError msg)
  /\ str_in (repr_list names) msg = true
  /\ str_in (repr_dict (sizes pw)) msg = true
  /\ str_in (repr_dict kept) msg = true.
Proof.
  cbv zeta. intros Hnames Ha Hb Hw Hnorm Hmin Hlo Hpos Hclash Hdiff.
  split; [|exact (size_mismatch_msg_contains (DimList _) _ _)].
  set (names := fst (_preprocess_dims dim)) in *.
  unfold prepared, reduced in *.
  destruct (is_correlation m) eqn:Hm; cbn [andb] in *.
  - specialize (Hnames eq_refl). specialize (Hclash eq_refl).
    rewrite (correlation_unfold m a b dim (Some w) Hm). cbv zeta. fold names.
    assert (Hpre : _preprocess_weights pa (DimList names)
                     (DimStr (String.concat "_" names)) (Some pw)
                   = Raise (ValueError (size_mismatch_msg (DimList names) (sizes pw)
                              (restrict_sizes pa [String.concat "_" names])))).
    { apply (preprocess_weights_mismatch pa pw nw _ _ lo); auto using kept_sizes_str.
      intros k n Hin Hdrop. apply (Hpos k n Hin). intros [<-|[]].
      apply in_drop_dims in Hdrop as [_ Hdrop]. cbn [py_in] in Hdrop.
      rewrite str_in_refl in Hdrop. discriminate Hdrop. }
    destruct (1 <? length names)%nat eqn:Hlen.
    + unfold stacked_call. cbv zeta. rewrite Ha, Hb. cbn [Py.bind]. rewrite Hw.
      cbn [Py.bind]. rewrite Hpre. reflexivity.
    + injection Ha as <-. injection Hw as <-.
      destruct names as [|d [|d' rest]]; [contradiction | | discriminate Hlen].
      unfold single_call. change (String.concat "_" [d]) with d in Hpre.
      rewrite Hpre. reflexivity.
  - injection Ha as <-. injection Hw as <-.
    rewrite (error_unfold m a b dim (Some w) Hm). unfold unstacked_call. cbv zeta. fold names.
    rewrite (preprocess_weights_mismatch a w nw _ _ lo (restrict_sizes a names));
      auto using kept_sizes_list.
    intros k n Hin Hdrop. apply (Hpos k n Hin).
    apply in_drop_dims in Hdrop as [_ Hdrop]. cbn [py_in] in Hdrop.
    rewrite <- list_in_iff. congruence.
Qed.

Lemma size_mismatch_raises_witness :
  (rmse Examples.series Examples.series (DimStr "time") (Some Examples.long_positive)
     = Raise (ValueError
         "weights dimension(s) ['time'] of size {'time': 3} does not match DataArray's size {'time': 2}")
   /\ pearson_r Examples.grid Examples.grid (DimList ["t"; "lat"]) (Some Examples.small_grid)
     = Raise (ValueError
         "weights dimension(s) ['t', 'lat'] of size {'t_lat': 4} does not match DataArray's size {'t_lat': 6}")).
Proof.
  split.
  - refine (proj1 (size_mismatch_raises Rmse
        Examples.series Examples.series Examples.long_positive
        Examples.series Examples.series Examples.long_positive
        {| sizes := [("time", 3%nat)]; values := [Num (1 # 4); Num (1 # 2); Num 1] |}
        (DimStr "time") (Num (1 # 4)) _ _ _ _ _ _ _ _ _ _));
      try (vm_compute; reflexivity); try discriminate; try by_decide.
    intros k n [E|[]] _. injection E as _ <-. discriminate.
  - refine (proj1 (size_mismatch_raises Pearson_r
        Examples.grid Examples.grid Examples.small_grid
        {| sizes := [("t_lat", 6%nat)]; values := map Examples.num [1; 2; 3; 4; 5; 6]%Z |}
        {| sizes := [("t_lat", 6%nat)]; values := map Examples.num [1; 2; 3; 4; 5; 6]%Z |}
        {| sizes := [("t_lat", 4%nat)]; values := map Examples.num [1; 2; 3; 4]%Z |}
        {| sizes := [("t_lat", 4%nat)];
           values := [Num (1 # 4); Num (1 # 2); Num (3 # 4); Num 1] |}
        (DimList ["t"; "lat"]) (Num (1 # 4)) _ _ _ _ _ _ _ _ _ _));
      try (vm_compute; reflexivity); try discriminate; try by_decide.
    + intros k n [E|[]] _. injection E as _ <-. discriminate.
    + intros _ k [<-|[]] Hk. contradiction.
Defined.



(** ** The dimension normalizer (C5) *)

Lemma axis_dim_trailing (outer names : list string) (k : nat) :
  (k < length names)%nat ->
  axis_dim (outer ++ names) (- Z.of_nat (S k)) = nth_error (rev names) k.
Proof.
  intros Hk. unfold axis_dim. rewrite length_app.
  destruct (orb _ _) eqn:E.
  { apply orb_true_iff in E as [E|E]; [apply Z.ltb_lt in E | apply Z.leb_le in E]; lia. }
  destruct (_ <? 0)%Z eqn:E2; [| apply Z.ltb_ge in E2; lia].
  match goal with
  | |- nth_error _ ?i = _ =>
      replace i with (length outer + (length names - S k))%nat by lia
  end.
  rewrite nth_error_app2 by lia.
  replace (length outer + (length names - S k) - length outer)%nat
    with (length names - S k)%nat by lia.
  rewrite nth_error_rev. apply Nat.ltb_lt in Hk. now rewrite Hk.
Qed.

(** C5: the dimension normalizer wraps one name into a one-element list and
    keeps a list as it is; the axis tuple is (-1, -2, ..., -len(dim)); read
    against any array whose trailing dimensions are the names, the tuple
    addresses exactly those dimensions in reverse order, the last name at
    axis -1.  The function is total: it returns this pair for every input. *)
Theorem preprocess_dims_contract (dim : dim_arg) :
  let names := match dim with DimStr s => [s] | DimList l => l end in
  _preprocess_dims dim
    = (names, map (fun k => (- Z.of_nat (S k))%Z) (seq 0 (length names)))
  /\ forall outer : list string,
       map (axis_dim (outer ++ names)) (snd (_preprocess_dims dim))
         = map Some (rev names).
Proof.
  cbv zeta. unfold _preprocess_dims.
  set (names := match dim with DimStr s => [s] | DimList l => l end).
  rewrite range_down. split; [reflexivity|].
  intros outer. cbn [snd]. rewrite map_map.
  apply nth_error_ext. intros k.
  rewrite !nth_error_map.
  destruct (Nat.lt_ge_cases k (length names)) as [Hk|Hk].
  - rewrite (nth_error_nth' (seq 0 (length names)) 0%nat) by (now rewrite length_seq).
    rewrite seq_nth by exact Hk. cbn [option_map Nat.add].
    rewrite axis_dim_trailing by exact Hk.
    destruct (nth_error (rev names) k) eqn:E; [reflexivity|].
    apply nth_error_None in E. rewrite length_rev in E. lia.
  - assert (E1 : nth_error (seq 0 (length names)) k = None)
      by (apply nth_error_None; now rewrite length_seq).
    assert (E2 : nth_error (rev names) k = None)
      by (apply nth_error_None; now rewrite length_rev).
    now rewrite E1, E2.
Qed.

(** ** Stacking (C6, C7) *)

(** C6: with more than one reduction dimension, [pearson_r] and
    [pearson_r_p_value] stack first.  When the engine can stack [a], [b] and
    the weights, if there are any, each of them is replaced by the array in
    which the listed dimensions are combined, in their listed order with the
    last name varying fastest, into one trailing dimension named by the
    underscore-join of the names; only then are the weights preprocessed,
    against the stacked [a], and the kernel reduces along that one
    dimension.  When one of them cannot be stacked, the engine's error comes
    out, whatever the weights hold: no weight is looked at before the
    stacking. *)
Theorem correlation_family_stacks_inputs (m : metric) (a b : DataArray)
    (names : list string) (weights : option DataArray) :
  let new_dim := String.concat "_" names in
  let inputs := a :: b :: match weights with Some w => [w] | None => [] end in
  is_correlation m = true ->
  (1 < length names)%nat ->
  Forall (fun x => NoDup (dims x)) inputs ->
  (Forall (can_stack new_dim names) inputs ->
   exists sa sb sw,
     stacked_from new_dim names a sa
     /\ stacked_from new_dim names b sb
     /\ stacked_weights new_dim names weights sw
     /\ metric_fn m a b (DimList names) weights
        = let* w := _preprocess_weights sa (DimList names) (DimStr new_dim) sw in
          Ok {| func := kernel_of m; arg_a := sa; arg_b := sb; arg_weights := w;
                input_core_dims := [[new_dim]; [new_dim]; [new_dim]];
                axis := AxisInt (-1) |})
  /\ (~ Forall (can_stack new_dim names) inputs ->
      metric_fn m a b (DimList names) weights = Raise (XarrayError "stack")).
Proof.
  cbv zeta. intros Hm Hlen Hnd.
  rewrite (correlation_unfold m a b (DimList names) weights Hm). cbv zeta.
  change (fst (_preprocess_dims (DimList names))) with names.
  apply Nat.ltb_lt in Hlen. rewrite Hlen. unfold stacked_call. cbv zeta.
  set (new_dim := String.concat "_" names).
  inversion Hnd as [|? ? Hnda Hnd1]. subst. inversion Hnd1 as [|? ? Hndb Hnd2]. subst.
  split.
  - intros Hcan.
    inversion Hcan as [|? ? Hca Hcan1]. subst. inversion Hcan1 as [|? ? Hcb Hcan2]. subst.
    destruct (stack_succeeds _ _ _ Hca) as [sa Hsa].
    destruct (stack_succeeds _ _ _ Hcb) as [sb Hsb].
    rewrite Hsa, Hsb. cbn [Py.bind].
    destruct weights as [w|].
    + inversion Hcan2 as [|? ? Hcw _]. subst. inversion Hnd2 as [|? ? Hndw _]. subst.
      destruct (stack_succeeds _ _ _ Hcw) as [sw Hsw]. rewrite Hsw. cbn [Py.bind].
      exists sa, sb, (Some sw). repeat split; try reflexivity;
        try (apply stack_spec; assumption);
        destruct (stack_spec _ _ _ _ Hnda Hsa) as (? & ? & ?);
        destruct (stack_spec _ _ _ _ Hndb Hsb) as (? & ? & ?);
        destruct (stack_spec _ _ _ _ Hndw Hsw) as (? & ? & ?); assumption.
    + cbn [Py.bind]. exists sa, sb, None. repeat split; try reflexivity;
        destruct (stack_spec _ _ _ _ Hnda Hsa) as (? & ? & ?);
        destruct (stack_spec _ _ _ _ Hndb Hsb) as (? & ? & ?); assumption.
  - intros Hno.
    destruct (xr.stack new_dim names a) as [sa|e] eqn:Ha;
      [|now rewrite (stack_raises _ _ _ _ Ha)].
    destruct (xr.stack new_dim names b) as [sb|e] eqn:Hb;
      [|now rewrite (stack_raises _ _ _ _ Hb)].
    cbn [Py.bind].
    assert (Hca : can_stack new_dim names a).
    { destruct (stack_ok _ _ _ _ Ha) as (H1 & H2 & H3 & _). repeat split; assumption. }
    assert (Hcb : can_stack new_dim names b).
    { destruct (stack_ok _ _ _ _ Hb) as (H1 & H2 & H3 & _). repeat split; assumption. }
    destruct weights as [w|].
    + destruct (xr.stack new_dim names w) as [sw|e] eqn:Hw;
        [|now rewrite (stack_raises _ _ _ _ Hw)].
      exfalso. apply Hno.
      constructor; [exact Hca|]. constructor; [exact Hcb|]. constructor; [|constructor].
      destruct (stack_ok _ _ _ _ Hw) as (H1 & H2 & H3 & _). repeat split; assumption.
    + exfalso. apply Hno.
      constructor; [exact Hca|]. constructor; [exact Hcb|]. constructor.
Qed.

Lemma correlation_family_stacks_inputs_witness :
  (exists sa sb sw,
     stacked_from "lat_t" ["lat"; "t"] Examples.grid sa
     /\ stacked_from "lat_t" ["lat"; "t"] Examples.grid sb
     /\ stacked_weights "lat_t" ["lat"; "t"] (Some Examples.grid) sw
     /\ pearson_r Examples.grid Examples.grid (DimList ["lat"; "t"]) (Some Examples.grid)
        = let* w := _preprocess_weights sa (DimList ["lat"; "t"]) (DimStr "lat_t") sw in
          Ok {| func := _pearson_r; arg_a := sa; arg_b := sb; arg_weights := w;
                input_core_dims := [["lat_t"]; ["lat_t"]; ["lat_t"]];
                axis := AxisInt (-1) |})
  /\ pearson_r Examples.grid Examples.grid (DimList ["lat"; "x"]) (Some Examples.all_negative)
     = Raise (XarrayError "stack").
Proof.
  split.
  - apply (proj1 (correlation_family_stacks_inputs Pearson_r Examples.grid Examples.grid
                    ["lat"; "t"] (Some Examples.grid) eq_refl ltac:(simpl; lia)
                    ltac:(repeat constructor; by_decide))).
    assert (Hc : can_stack "lat_t" ["lat"; "t"] Examples.grid).
    { split; [|split].
      - intros d [<-|[<-|[]]]; simpl; auto.
      - by_decide.
      - simpl. intros [H|[H|[]]]; discriminate H. }
    constructor; [exact Hc|]. constructor; [exact Hc|]. constructor; [exact Hc | constructor].
  - apply (proj2 (correlation_family_stacks_inputs Pearson_r Examples.grid Examples.grid
                    ["lat"; "x"] (Some Examples.all_negative) eq_refl ltac:(simpl; lia)
                    ltac:(repeat constructor; by_decide))).
    intros H. inversion H as [|? ? (Hsub & _) _]. subst.
    specialize (Hsub "x" ltac:(simpl; auto)). simpl in Hsub.
    intuition discriminate.
Defined.

(** C7: [rmse], [mse] and [mae] do not stack: [a] and [b] reach the kernel as
    they came, the weights are preprocessed with the list of names both as
    [dim] and as [new_dim], and the axis tuple of the dimension normalizer is
    the [axis] keyword. *)
Theorem error_family_no_stacking (a b : DataArray) (dim : dim_arg)
    (weights : option DataArray) :
  rmse a b dim weights = unstacked_call _rmse a b dim weights
  /\ mse a b dim weights = unstacked_call _mse a b dim weights
  /\ mae a b dim weights = unstacked_call _mae a b dim weights.
Proof.
  unfold rmse, mse, mae, unstacked_call.
  destruct (_preprocess_dims dim) as [names ax]. cbn [fst snd].
  repeat split.
Qed.


(** * Further properties of the module *)

(** ** What the weight preprocessor returns *)

(** Whatever the weights, the array the preprocessor returns has the size
    mapping of [a]. *)
Lemma preprocess_weights_sizes (a r : DataArray) (dim new_dim : dim_arg)
    (weights : option DataArray) :
  _preprocess_weights a dim new_dim weights = Ok r ->
  as_dict (sizes r) = as_dict (sizes a).
Proof.
  destruct weights as [w|].
  - intros Hok. destruct (preprocess_weights_result a w r dim new_dim Hok)
      as (m & _ & [-> | [-> Heq]]); [reflexivity | exact Heq].
  - intros H. injection H as <-. reflexivity.
Qed.

(** Every call a metric function hands to the kernel carries weights with
    the size mapping of the first array of that call: of [a], or of the
    stacked [a] in the correlation family. *)
Theorem kernel_weights_sized_like_a (m : metric) (a b : DataArray) (dim : dim_arg)
    (weights : option DataArray) (c : ufunc_call) :
  metric_fn m a b dim weights = Ok c ->
  as_dict (sizes (arg_weights c)) = as_dict (sizes (arg_a c)).
Proof.
  destruct (is_correlation m) eqn:Hm.
  - rewrite (correlation_unfold m a b dim weights Hm). cbv zeta.
    destruct (1 <? length (fst (_preprocess_dims dim)))%nat.
    + unfold stacked_call. cbv zeta.
      destruct (xr.stack _ _ a) as [sa|]; [|discriminate]. cbn [Py.bind].
      destruct (xr.stack _ _ b) as [sb|]; [|discriminate]. cbn [Py.bind].
      destruct (match weights with Some w => _ | None => _ end) as [sw|]; [|discriminate].
      cbn [Py.bind].
      destruct (_preprocess_weights sa _ _ sw) as [r|] eqn:Hr; [|discriminate].
      cbn [Py.bind]. intros H. injection H as <-. cbn [arg_weights arg_a].
      exact (preprocess_weights_sizes _ _ _ _ _ Hr).
    + destruct (fst (_preprocess_dims dim)) as [|d rest]; [discriminate|].
      unfold single_call.
      destruct (_preprocess_weights a _ _ weights) as [r|] eqn:Hr; [|discriminate].
      cbn [Py.bind]. intros H. injection H as <-. cbn [arg_weights arg_a].
      exact (preprocess_weights_sizes _ _ _ _ _ Hr).
  - rewrite (error_unfold m a b dim weights Hm). unfold unstacked_call. cbv zeta.
    destruct (_preprocess_weights a _ _ weights) as [r|] eqn:Hr; [|discriminate].
    cbn [Py.bind]. intros H. injection H as <-. cbn [arg_weights arg_a].
    exact (preprocess_weights_sizes _ _ _ _ _ Hr).
Qed.

Lemma kernel_weights_sized_like_a_witness :
  as_dict [("t", 2%nat); ("lat", 3%nat)] = as_dict (sizes Examples.grid).
Proof.
  exact (kernel_weights_sized_like_a Rmse Examples.grid Examples.grid (DimStr "lat")
           (Some Examples.lat_weights)
           {| func := _rmse; arg_a := Examples.grid; arg_b := Examples.grid;
              arg_weights :=
                {| sizes := [("t", 2%nat); ("lat", 3%nat)];
                   values := [Num (1 # 4); Num (1 # 2); Num 1;
                              Num (1 # 4); Num (1 # 2); Num 1] |};
              input_core_dims := [["lat"]; ["lat"]; ["lat"]];
              axis := AxisTuple [(-1)%Z] |}
           eq_refl).
Defined.

(** ** Which weights the error family accepts *)

(** For [rmse], [mse] and [mae], weights that get past the negative-value
    check are accepted exactly when their size mapping is that of [a] along
    the listed dimensions: nothing else is asked of their shape, and nothing
    less. *)
Theorem error_family_accepts_iff (m : metric) (a b w nw : DataArray) (dim : dim_arg)
    (lo : val) :
  let names := fst (_preprocess_dims dim) in
  is_correlation m = false ->
  NoDup (dims a) ->
  NoDup (dims w) ->
  normalized w = Ok nw ->
  xr.min nw = Ok lo ->
  vltb lo zero = false ->
  (forall k n, In (k, n) (sizes a) -> ~ In k names -> n <> 0%nat) ->
  (exists c, metric_fn m a b dim (Some w) = Ok c)
  <-> as_dict (sizes w) = as_dict (restrict_sizes a names).
Proof.
  cbv zeta. intros Hm Hnd Hndw Hnorm Hmin Hlo Hpos.
  set (names := fst (_preprocess_dims dim)) in *.
  rewrite (error_unfold m a b dim (Some w) Hm). unfold unstacked_call. cbv zeta. fold names.
  assert (Hslice : forall k n, In (k, n) (sizes a) ->
                     In k (drop_dims a (DimList names)) -> n <> 0%nat).
  { intros k n Hin Hdrop. apply (Hpos k n Hin).
    apply in_drop_dims in Hdrop as [_ Hdrop]. cbn [py_in] in Hdrop.
    rewrite <- list_in_iff. congruence. }
  split.
  - intros [c Hc].
    destruct (_preprocess_weights a _ _ (Some w)) as [r|] eqn:Hr; [|discriminate Hc].
    apply preprocess_weights_accepts in Hr as (m0 & lo0 & sel & _ & _ & _ & Hsel & Heq).
    rewrite Heq, (isel0_sizes _ _ _ Hsel), kept_sizes_list. reflexivity.
  - intros Heq. unfold normalized in Hnorm. unfold _preprocess_weights.
    destruct (xr.max w) as [mx|]; [|discriminate Hnorm]. cbn [Py.bind] in Hnorm |- *.
    injection Hnorm as <-. rewrite Hmin. cbn [Py.bind]. rewrite Hlo.
    rewrite (isel0_ok a _ Hslice). cbn [Py.bind reindex sizes xr.div].
    rewrite kept_sizes_list.
    rewrite bool_decide_eq_false_2 by (intros H; now apply H).
    destruct (bool_decide _).
    + unfold xr.broadcast.
      assert (Hcheck : forallb (fun kn => negb (list_in (fst kn) (dims a))
                                          || (size_along a (fst kn) =? snd kn)%nat)
                         (sizes (xr.div w mx)) = true).
      { apply forallb_forall. intros [k n] Hin. cbn [fst snd xr.div sizes] in *.
        apply orb_true_iff. right. apply Nat.eqb_eq. apply size_along_lookup; [exact Hnd|].
        pose proof (as_dict_lookup (sizes w) k n Hndw Hin) as Hl. rewrite Heq in Hl.
        apply as_dict_lookup_inv in Hl. apply filter_In in Hl. tauto. }
      rewrite Hcheck. cbn [Py.bind]. eauto.
    + cbn [Py.bind]. eauto.
Qed.

Lemma error_family_accepts_iff_witness :
  (exists c, rmse Examples.grid Examples.grid (DimStr "lat") (Some Examples.lat_weights) = Ok c)
  <-> as_dict (sizes Examples.lat_weights) = as_dict (restrict_sizes Examples.grid ["lat"]).
Proof.
  apply (error_family_accepts_iff Rmse Examples.grid Examples.grid Examples.lat_weights
           {| sizes := [("lat", 3%nat)]; values := [Num (1 # 4); Num (1 # 2); Num 1] |}
           (DimStr "lat") (Num (1 # 4))).
  - reflexivity.
  - by_decide.
  - by_decide.
  - vm_compute. reflexivity.
  - vm_compute. reflexivity.
  - reflexivity.
  - intros k n [E|[E|[]]] _; injection E as _ <-; discriminate.
Defined.

(** ** The errors a caller can meet *)

Lemma max_raises (w : DataArray) (e : exn) :
  xr.max w = Raise e -> e = XarrayError "max".
Proof. unfold xr.max. destruct (values w); intros H; [now injection H | discriminate H]. Qed.

Lemma min_raises (w : DataArray) (e : exn) :
  xr.min w = Raise e -> e = XarrayError "min".
Proof. unfold xr.min. destruct (values w); intros H; [now injection H | discriminate H]. Qed.

Lemma isel0_raises (a : DataArray) (drop : list string) (e : exn) :
  xr.isel0 a drop = Raise e -> e = XarrayError "isel".
Proof. unfold xr.isel0. destruct (existsb _ _); intros H; [now injection H | discriminate H]. Qed.

Lemma broadcast_raises (a w : DataArray) (e : exn) :
  xr.broadcast a w = Raise e -> e = XarrayError "broadcast".
Proof.
  unfold xr.broadcast. destruct (forallb _ _); intros H; [discriminate H | now injection H].
Qed.

(** A [ValueError] out of the weight preprocessor is one of its two. *)
Lemma preprocess_weights_value_error (a : DataArray) (dim new_dim : dim_arg)
    (weights : option DataArray) (msg : string) :
  _preprocess_weights a dim new_dim weights = Raise (ValueError msg) ->
  msg = negative_weights_msg
  \/ exists ws szs, msg = size_mismatch_msg dim ws szs.
Proof.
  destruct weights as [w|]; [|discriminate]. unfold _preprocess_weights.
  destruct (xr.max w) as [m|e] eqn:Hmax.
  2:{ apply max_raises in Hmax. subst e. discriminate. }
  cbn [Py.bind]. destruct (xr.min _) as [lo|e] eqn:Hmin.
  2:{ apply min_raises in Hmin. subst e. discriminate. }
  cbn [Py.bind]. destruct (vltb lo zero).
  { intros H. left. symmetry. exact (raise_value_error_inj _ _ H). }
  destruct (xr.isel0 _ _) as [sel|e] eqn:Hsel.
  2:{ apply isel0_raises in Hsel. subst e. discriminate. }
  cbn [Py.bind]. destruct (bool_decide _).
  { intros H. right. eexists _, _. symmetry. exact (raise_value_error_inj _ _ H). }
  destruct (bool_decide _); [|discriminate].
  destruct (xr.broadcast _ _) as [r|e] eqn:Hb; [discriminate|].
  apply broadcast_raises in Hb. subst e. discriminate.
Qed.

(** The only [ValueError]s a metric function ends in are the two of the
    weight preprocessor: the negative-weights message, or the size message
    naming the list of requested dimensions. *)
Theorem value_errors_are_the_two_checks (m : metric) (a b : DataArray) (dim : dim_arg)
    (weights : option DataArray) (msg : string) :
  metric_fn m a b dim weights = Raise (ValueError msg) ->
  msg = negative_weights_msg
  \/ exists ws szs,
       msg = size_mismatch_msg (DimList (fst (_preprocess_dims dim))) ws szs.
Proof.
  destruct (is_correlation m) eqn:Hm.
  - rewrite (correlation_unfold m a b dim weights Hm). cbv zeta.
    destruct (1 <? length (fst (_preprocess_dims dim)))%nat.
    + unfold stacked_call. cbv zeta.
      destruct (xr.stack _ _ a) as [sa|e] eqn:Ha.
      2:{ apply stack_raises in Ha. subst e. discriminate. }
      cbn [Py.bind]. destruct (xr.stack _ _ b) as [sb|e] eqn:Hb.
      2:{ apply stack_raises in Hb. subst e. discriminate. }
      cbn [Py.bind].
      assert (Hw : forall sw, _preprocess_weights sa
                     (DimList (fst (_preprocess_dims dim)))
                     (DimStr (String.concat "_" (fst (_preprocess_dims dim)))) sw
                   = Raise (ValueError msg) ->
                   msg = negative_weights_msg
                   \/ exists ws szs,
                        msg = size_mismatch_msg (DimList (fst (_preprocess_dims dim))) ws szs)
        by (intros sw; apply preprocess_weights_value_error).
      destruct weights as [w|]; cbn [Py.bind].
      * destruct (xr.stack _ _ w) as [sw|e] eqn:Hsw.
        2:{ apply stack_raises in Hsw. subst e. discriminate. }
        cbn [Py.bind]. specialize (Hw (Some sw)).
        destruct (_preprocess_weights sa _ _ (Some sw)) as [r|e]; [discriminate|].
        cbn [Py.bind]. intros H. apply Hw. injection H as ->. reflexivity.
      * discriminate.
    + destruct (fst (_preprocess_dims dim)) as [|d rest] eqn:En; [discriminate|].
      unfold single_call.
      destruct (_preprocess_weights a _ _ weights) as [r|e] eqn:Hr; [discriminate|].
      cbn [Py.bind]. intros H. injection H as ->.
      exact (preprocess_weights_value_error _ _ _ _ _ Hr).
  - rewrite (error_unfold m a b dim weights Hm). unfold unstacked_call. cbv zeta.
    destruct (_preprocess_weights a _ _ weights) as [r|e] eqn:Hr; [discriminate|].
    cbn [Py.bind]. intros H. injection H as ->.
    exact (preprocess_weights_value_error _ _ _ _ _ Hr).
Qed.

Lemma value_errors_are_the_two_checks_witness :
  negative_weights_msg = negative_weights_msg
  \/ exists ws szs,
       negative_weights_msg
         = size_mismatch_msg (DimList (fst (_preprocess_dims (DimStr "time")))) ws szs.
Proof.
  exact (value_errors_are_the_two_checks Rmse Examples.series Examples.series
           (DimStr "time") (Some Examples.long_mixed) negative_weights_msg eq_refl).
Defined.

(** An empty list of dimensions.  The correlation family reads [dim[0]] and
    ends in Python's [IndexError] whatever the arrays and the weights are,
    before any weight is looked at; the error family goes on and, without
    weights, asks the kernel for a reduction over no axis at all. *)
Theorem empty_dim_list (a b : DataArray) (weights : option DataArray) :
  pearson_r a b (DimList []) weights = Raise IndexError
  /\ pearson_r_p_value a b (DimList []) weights = Raise IndexError
  /\ forall m, is_correlation m = false ->
       metric_fn m a b (DimList []) None
         = Ok {| func := kernel_of m; arg_a := a; arg_b := b;
                 arg_weights := xr.ones_like a;
                 input_core_dims := [[]; []; []];
                 axis := AxisTuple [] |}.
Proof.
  repeat split. intros m Hm. destruct m; try discriminate Hm; reflexivity.
Qed.

(** In the correlation family with several dimensions the weights are
    stacked over the same list as [a] and [b]: weights that lack one of the
    listed dimensions are not broadcast but make the call end in the
    engine's stacking error, before any check of the module runs. *)
Theorem correlation_weights_need_every_listed_dim (m : metric) (a b w sa sb : DataArray)
    (names : list string) (d : string) :
  is_correlation m = true ->
  (1 < length names)%nat ->
  xr.stack (String.concat "_" names) names a = Ok sa ->
  xr.stack (String.concat "_" names) names b = Ok sb ->
  In d names ->
  ~ In d (dims w) ->
  metric_fn m a b (DimList names) (Some w) = Raise (XarrayError "stack").
Proof.
  intros Hm Hlen Ha Hb Hd Hnot.
  rewrite (correlation_unfold m a b (DimList names) (Some w) Hm). cbv zeta.
  change (fst (_preprocess_dims (DimList names))) with names.
  apply Nat.ltb_lt in Hlen. rewrite Hlen.
  unfold stacked_call. cbv zeta. rewrite Ha, Hb. cbn [Py.bind].
  assert (Hw : xr.stack (String.concat "_" names) names w = Raise (XarrayError "stack")).
  { unfold xr.stack.
    assert (E : forallb (fun d => list_in d (dims w)) names = false).
    { apply not_true_is_false. rewrite forallb_forall. intros H.
      apply Hnot. apply list_in_iff. apply H. exact Hd. }
    rewrite E. reflexivity. }
  rewrite Hw. reflexivity.
Qed.

Lemma correlation_weights_need_every_listed_dim_witness :
  pearson_r Examples.grid Examples.grid (DimList ["t"; "lat"]) (Some Examples.lat_weights)
    = Raise (XarrayError "stack").
Proof.
  apply (correlation_weights_need_every_listed_dim Pearson_r
           Examples.grid Examples.grid Examples.lat_weights
           {| sizes := [("t_lat", 6%nat)]; values := map Examples.num [1; 2; 3; 4; 5; 6]%Z |}
           {| sizes := [("t_lat", 6%nat)]; values := map Examples.num [1; 2; 3; 4; 5; 6]%Z |}
           ["t"; "lat"] "t").
  - reflexivity.
  - simpl. lia.
  - vm_compute. reflexivity.
  - vm_compute. reflexivity.
  - simpl. auto.
  - simpl. intros [H|[]]. discriminate H.
Defined.

(** ** One reduction dimension in both families *)

(** [new_dim] matters to the preprocessor only through the dimensions it
    makes the size check collapse. *)
Lemma preprocess_weights_new_dim (a : DataArray) (dim nd1 nd2 : dim_arg)
    (weights : option DataArray) :
  drop_dims a nd1 = drop_dims a nd2 ->
  _preprocess_weights a dim nd1 weights = _preprocess_weights a dim nd2 weights.
Proof. intros H. unfold _preprocess_weights. now rewrite H. Qed.

Lemma drop_dims_single (a : DataArray) (d : string) :
  no_substring_clash d a ->
  drop_dims a (DimStr d) = drop_dims a (DimList [d]).
Proof.
  intros Hclash. unfold drop_dims. apply filter_ext_in. intros k Hk. cbn [py_in].
  f_equal. destruct (String.eqb k d) eqn:E.
  - apply String.eqb_eq in E. subst k. rewrite str_in_refl.
    unfold list_in. cbn. now rewrite String.eqb_refl.
  - apply String.eqb_neq in E. rewrite (Hclash k Hk E).
    unfold list_in. cbn. apply String.eqb_neq in E. now rewrite E.
Qed.

(** For one reduction dimension whose name contains no other dimension name
    of [a], all five metric functions treat the weights alike: they end in
    the same error or hand the kernel the same weights. *)
Theorem families_agree_on_one_dimension (m1 m2 : metric) (a b : DataArray) (d : string)
    (weights : option DataArray) :
  no_substring_clash d a ->
  weights_of (metric_fn m1 a b (DimStr d) weights)
    = weights_of (metric_fn m2 a b (DimStr d) weights).
Proof.
  intros Hclash.
  assert (H : forall m, weights_of (metric_fn m a b (DimStr d) weights)
                        = _preprocess_weights a (DimList [d]) (DimList [d]) weights).
  { intros m. destruct (is_correlation m) eqn:Hm.
    - rewrite (correlation_unfold m a b (DimStr d) weights Hm). cbv zeta.
      change (fst (_preprocess_dims (DimStr d))) with [d]. cbn [length Nat.ltb Nat.leb].
      unfold single_call.
      rewrite (preprocess_weights_new_dim a (DimList [d]) (DimStr d) (DimList [d]) weights
                 (drop_dims_single a d Hclash)).
      destruct (_preprocess_weights a _ _ weights); reflexivity.
    - rewrite (error_unfold m a b (DimStr d) weights Hm). unfold unstacked_call. cbv zeta.
      change (fst (_preprocess_dims (DimStr d))) with [d].
      destruct (_preprocess_weights a _ _ weights); reflexivity. }
  now rewrite !H.
Qed.

Lemma families_agree_on_one_dimension_witness :
  weights_of (pearson_r Examples.field Examples.field (DimStr "lat")
                (Some Examples.lat_weights))
    = weights_of (rmse Examples.field Examples.field (DimStr "lat")
                    (Some Examples.lat_weights)).
Proof.
  apply (families_agree_on_one_dimension Pearson_r Rmse Examples.field Examples.field "lat"
           (Some Examples.lat_weights)).
  intros k [<-|[<-|[]]] Hk; [reflexivity | contradiction].
Defined.

(** ** The size check after stacking *)

Lemma size_of_permutation (l1 l2 : list (string * nat)) :
  Permutation l1 l2 -> size_of l1 = size_of l2.
Proof.
  induction 1 as [|[k n] l1 l2 _ IH|[k n] [k' n'] l|l1 l2 l3 _ IH1 _ IH2].
  - reflexivity.
  - rewrite !size_of_cons. now rewrite IH.
  - rewrite !size_of_cons. lia.
  - now rewrite IH1.
Qed.

Lemma NoDup_pairs (l : list (string * nat)) : NoDup (map fst l) -> NoDup l.
Proof.
  induction l as [|[k n] l IH]; intros H; [constructor|].
  cbn [map fst] in H. apply NoDup_cons in H as [Hk Hl]. apply NoDup_cons. split; auto.
  intros Hin. apply Hk. apply list_elem_of_In. apply list_elem_of_In in Hin.
  apply in_map_iff. exists (k, n). auto.
Qed.

(** Stacking all the dimensions of an array leaves one dimension with as
    many positions as the array has entries. *)
Lemma stack_all_sizes (new_dim : string) (names : list string) (x sx : DataArray) :
  NoDup (dims x) ->
  (forall k, In k (dims x) -> In k names) ->
  xr.stack new_dim names x = Ok sx ->
  sizes sx = [(new_dim, size_of (sizes x))].
Proof.
  intros Hnd Hall Hs.
  destruct (stack_ok _ _ _ _ Hs) as (Hsub & Hnames & _ & Hsizes).
  rewrite Hsizes. rewrite filter_none.
  2:{ intros [k n] Hin. cbn [fst]. apply negb_false_iff. apply list_in_iff. apply Hall.
      apply in_dims. eauto. }
  cbn [app]. do 2 f_equal. apply size_of_permutation. apply NoDup_Permutation.
  - apply NoDup_pairs. rewrite map_map. cbn [fst]. now rewrite map_id.
  - apply NoDup_pairs. exact Hnd.
  - intros [k n]. rewrite !list_elem_of_In, in_map_iff. split.
    + intros [d [E Hd]]. injection E as -> <-.
      destruct (proj1 (in_dims x k) (Hsub k Hd)) as [n Hn].
      now rewrite (size_along_lookup x k n Hnd Hn).
    + intros Hin. exists k. split.
      * now rewrite (size_along_lookup x k n Hnd Hin).
      * apply Hall. apply in_dims. eauto.
Qed.

(** After stacking, the size check of the correlation family sees one
    length only.  When [a] and the weights have the listed dimensions and no
    other, weights with as many entries as [a] pass the size check whatever
    their lengths along the single dimensions are. *)
Theorem stacked_size_check_sees_length_only (m : metric) (a b w sa sb sw nw : DataArray)
    (names : list string) (lo : val) :
  is_correlation m = true ->
  (1 < length names)%nat ->
  NoDup (dims a) ->
  NoDup (dims w) ->
  (forall k, In k (dims a) -> In k names) ->
  (forall k, In k (dims w) -> In k names) ->
  xr.stack (String.concat "_" names) names a = Ok sa ->
  xr.stack (String.concat "_" names) names b = Ok sb ->
  xr.stack (String.concat "_" names) names w = Ok sw ->
  normalized sw = Ok nw ->
  xr.min nw = Ok lo ->
  vltb lo zero = false ->
  size_of (sizes w) = size_of (sizes a) ->
  metric_fn m a b (DimList names) (Some w)
    = Ok {| func := kernel_of m; arg_a := sa; arg_b := sb; arg_weights := nw;
            input_core_dims := [[String.concat "_" names]; [String.concat "_" names];
                                [String.concat "_" names]];
            axis := AxisInt (-1) |}.
Proof.
  intros Hm Hlen Hnda Hndw Halla Hallw Ha Hb Hw Hnorm Hmin Hlo Hsize.
  set (new_dim := String.concat "_" names) in *.
  pose proof (stack_all_sizes new_dim names a sa Hnda Halla Ha) as Hsa.
  pose proof (stack_all_sizes new_dim names w sw Hndw Hallw Hw) as Hsw.
  rewrite Hsize in Hsw.
  rewrite (correlation_unfold m a b (DimList names) (Some w) Hm). cbv zeta.
  change (fst (_preprocess_dims (DimList names))) with names.
  apply Nat.ltb_lt in Hlen. rewrite Hlen.
  unfold stacked_call. cbv zeta. fold new_dim. rewrite Ha, Hb. cbn [Py.bind].
  rewrite Hw. cbn [Py.bind].
  assert (Hdrop : drop_dims sa (DimStr new_dim) = []).
  { unfold drop_dims, dims. rewrite Hsa. cbn [map fst List.filter py_in].
    now rewrite str_in_refl. }
  unfold normalized in Hnorm. unfold _preprocess_weights.
  destruct (xr.max sw) as [mx|]; [|discriminate Hnorm]. cbn [Py.bind] in Hnorm |- *.
  injection Hnorm as <-. rewrite Hmin. cbn [Py.bind]. rewrite Hlo.
  rewrite Hdrop. unfold xr.isel0. rewrite Hsa. cbn [existsb fst snd list_in andb orb].
  cbn [Py.bind List.filter fst list_in existsb negb reindex sizes xr.div].
  rewrite Hsw.
  rewrite !bool_decide_eq_false_2 by (intros H; now apply H).
  reflexivity.
Qed.

Lemma stacked_size_check_sees_length_only_witness :
  as_dict (sizes Examples.other_shape) <> as_dict (sizes Examples.grid)
  /\ exists c,
       pearson_r Examples.grid Examples.grid (DimList ["t"; "lat"])
         (Some Examples.other_shape) = Ok c.
Proof.
  split; [by_decide|]. eexists.
  apply (stacked_size_check_sees_length_only Pearson_r
           Examples.grid Examples.grid Examples.other_shape
           {| sizes := [("t_lat", 6%nat)]; values := map Examples.num [1; 2; 3; 4; 5; 6]%Z |}
           {| sizes := [("t_lat", 6%nat)]; values := map Examples.num [1; 2; 3; 4; 5; 6]%Z |}
           {| sizes := [("t_lat", 6%nat)]; values := map Examples.num [1; 2; 3; 4; 5; 6]%Z |}
           {| sizes := [("t_lat", 6%nat)];
              values := [Num (1 # 6); Num (1 # 3); Num (1 # 2); Num (2 # 3); Num (5 # 6);
                         Num 1] |}
           ["t"; "lat"] (Num (1 # 6)));
    try (vm_compute; reflexivity); try by_decide.
  - intros k Hk. exact Hk.
  - intros k Hk. exact Hk.
Defined.

(** ** The values of the returned weights *)



(** ** Uniform weights where no name clashes *)

(** Where the substring test does no harm, uniform weights are what a call
    without weights uses.  For an array [a] with distinct dimension names and
    at least one entry, a call without weights and a call with weights of
    ones over exactly the reduction dimensions, sized as in [a], give the
    same result: the same call of the kernel, or the same error.  For the
    correlation family this needs that no dimension name of [a] outside the
    reduction dimensions occurs inside the (underscore-joined) reduction
    name. *)
Theorem uniform_weights_where_no_clash (m : metric) (a b : DataArray) (dim : dim_arg) :
  let names := fst (_preprocess_dims dim) in
  NoDup (dims a) ->
  size_of (sizes a) <> 0%nat ->
  (is_correlation m = true ->
   forall k, In k (dims a) -> ~ In k names -> str_in k (String.concat "_" names) = false) ->
  metric_fn m a b dim None
    = metric_fn m a b dim (Some (ones_over (restrict_sizes a names))).
Proof.
  cbv zeta. intros Hnd Hne Hclash. destruct (is_correlation m) eqn:Hm.
  - rewrite !correlation_unfold by exact Hm. cbv zeta.
    specialize (Hclash eq_refl).
    set (names := fst (_preprocess_dims dim)) in *.
    destruct (1 <? length names)%nat eqn:Hlen.
    + unfold stacked_call. cbv zeta.
      destruct (xr.stack _ names a) as [sa|e] eqn:Ha; [|reflexivity]. cbn [Py.bind].
      destruct (xr.stack _ names b) as [sb|e] eqn:Hb; [|reflexivity]. cbn [Py.bind].
      destruct (stack_ok _ _ _ _ Ha) as (Hsub & Hnames & Hnew & _).
      destruct (stacked_array a sa names Hnd Hne Hclash Ha) as (Hnd' & Hne' & Hclash' & Hkept).
      rewrite (stack_ones a _ names Hnd Hsub Hnames Hnew). cbn [Py.bind].
      pose proof (preprocess_ones sa (DimList names) (DimStr (String.concat "_" names))
                    Hnd' Hne') as Hp.
      cbv zeta in Hp. rewrite (kept_sizes_str sa _ Hclash'), Hkept in Hp.
      rewrite Hp. reflexivity.
    + destruct names as [|d [|d' rest]] eqn:En; [reflexivity | | discriminate Hlen].
      unfold single_call.
      pose proof (preprocess_ones a (DimList [d]) (DimStr d) Hnd Hne) as Hp.
      cbv zeta in Hp. rewrite kept_sizes_str in Hp.
      * rewrite Hp. reflexivity.
      * intros k Hk Hneq. apply (Hclash k Hk). intros [E|[]]. congruence.
  - rewrite !error_unfold by exact Hm. unfold unstacked_call. cbv zeta.
    pose proof (preprocess_ones a (DimList (fst (_preprocess_dims dim)))
                  (DimList (fst (_preprocess_dims dim))) Hnd Hne) as Hp.
    cbv zeta in Hp. rewrite kept_sizes_list in Hp. rewrite Hp. reflexivity.
Qed.

Lemma uniform_weights_where_no_clash_witness :
  pearson_r Examples.field Examples.field (DimList ["time"; "lat"]) None
    = pearson_r Examples.field Examples.field (DimList ["time"; "lat"])
        (Some (ones_over (restrict_sizes Examples.field ["time"; "lat"])))
  /\ rmse Examples.field Examples.field (DimStr "time") None
    = rmse Examples.field Examples.field (DimStr "time")
        (Some (ones_over (restrict_sizes Examples.field ["time"]))).
Proof.
  split.
  - apply (uniform_weights_where_no_clash Pearson_r Examples.field Examples.field
             (DimList ["time"; "lat"])).
    + by_decide.
    + vm_compute. discriminate.
    + intros _ k Hk Hnot. exfalso. apply Hnot. exact Hk.
  - apply (uniform_weights_where_no_clash Rmse Examples.field Examples.field (DimStr "time")).
    + by_decide.
    + vm_compute. discriminate.
    + discriminate.
Defined.

(** ** The maximum of the returned weights *)

Lemma isel0_positions (a sel : DataArray) (drop : list string) (k : string) (n : nat) :
  xr.isel0 a drop = Ok sel -> In (k, n) (sizes a) -> In k drop -> n <> 0%nat.
Proof.
  unfold xr.isel0. destruct (existsb _ _) eqn:E; [discriminate|]. intros _ Hin Hk Hn.
  apply not_true_iff_false in E. apply E. apply existsb_exists. exists (k, n).
  split; [exact Hin|]. cbn [fst snd]. apply andb_true_iff. split.
  - now apply list_in_iff.
  - now apply Nat.eqb_eq.
Qed.

(** Every position of an array is the offset of a named index that stays
    within its dimensions and is at position 0 elsewhere. *)
Lemma offset_surjective (sz : list (string * nat)) (p : nat) :
  NoDup (map fst sz) -> (p < size_of sz)%nat ->
  exists idx,
    offset sz idx = p
    /\ (forall k n, In (k, n) sz -> (coord idx k < n)%nat)
    /\ (forall k, ~ In k (map fst sz) -> coord idx k = 0%nat).
Proof.
  revert p. induction sz as [|[d n] sz IH]; intros p Hnd Hp.
  - exists []. change (size_of []) with 1%nat in Hp. repeat split.
    + change (offset [] []) with 0%nat. lia.
    + intros k n [].
  - cbn [map fst] in Hnd. apply NoDup_cons in Hnd as [Hd Hnd].
    rewrite size_of_cons in Hp.
    assert (HS : size_of sz <> 0%nat) by (intros E; rewrite E in Hp; lia).
    destruct (IH (p mod size_of sz)%nat Hnd) as (idx & Hoff & Hb & Hz).
    { now apply Nat.mod_upper_bound. }
    assert (Hsame : forall k, In k (map fst sz) ->
                    coord ((d, (p / size_of sz)%nat) :: idx) k = coord idx k).
    { intros k Hk. cbn [coord]. destruct (String.eqb d k) eqn:E; [|reflexivity].
      apply String.eqb_eq in E. subst k. exfalso. apply Hd. now apply list_elem_of_In. }
    exists ((d, (p / size_of sz)%nat) :: idx). repeat split.
    + rewrite offset_cons. cbn [coord]. rewrite String.eqb_refl.
      rewrite (offset_ext sz _ idx Hsame), Hoff.
      rewrite (Nat.div_mod_eq p (size_of sz)) at 3. lia.
    + intros k m [E|Hin].
      * injection E as <- <-. cbn [coord]. rewrite String.eqb_refl.
        apply Nat.Div0.div_lt_upper_bound. lia.
      * rewrite Hsame; [now apply Hb|]. apply in_map_iff. exists (k, m). auto.
    + intros k Hk. cbn [coord]. destruct (String.eqb d k) eqn:E.
      * apply String.eqb_eq in E. subst k. exfalso. apply Hk. now left.
      * apply Hz. intros Hin. apply Hk. now right.
Qed.

Lemma in_indices_coord (target idx : list (string * nat)) :
  (forall k n, In (k, n) target -> (coord idx k < n)%nat) ->
  In (map (fun kn => (fst kn, coord idx (fst kn))) target) (indices target).
Proof.
  intros Hb. rewrite <- (nth_indices_coord target idx Hb). apply nth_In.
  rewrite length_indices. now apply offset_bound.
Qed.

(** Quotients by a positive maximum: one of them is 1 and none is above. *)
Lemma nan_reduce_vmax_one (l : list val) :
  Forall (fun x => exists q, x = Num (Qred q) /\ (q <= 1)%Q) l ->
  In one l ->
  nan_reduce vmax l = one.
Proof.
  intros Hall Hone.
  assert (Hnum : Forall is_number l).
  { apply List.Forall_forall. intros x Hx. rewrite List.Forall_forall in Hall.
    destruct (Hall x Hx) as (q & -> & _). exact I. }
  pose proof (nan_reduce_vmax_upper l one Hnum Hone) as Hup.
  destruct (nan_reduce_in vmax l vmax_pick) as [E|Hin].
  { rewrite E in Hup. destruct Hup. }
  rewrite List.Forall_forall in Hall. destruct (Hall _ Hin) as (q & E & Hq).
  rewrite E in Hup |- *. cbn [num_le one] in Hup. rewrite Qred_correct in Hup.
  unfold one. f_equal. apply (Qred_complete q 1). now apply Qle_antisym.
Qed.

Lemma quotients_at_most_one (w : DataArray) (m : Q) :
  Forall is_number (values w) ->
  xr.max w = Ok (Num m) ->
  (0 < m)%Q ->
  Forall (fun x => exists q, x = Num (Qred q) /\ (q <= 1)%Q) (values (xr.div w (Num m)))
  /\ exists p, (p < length (values w))%nat
              /\ nth p (values (xr.div w (Num m))) NaN = one.
Proof.
  intros Hnum Hmax Hm.
  assert (Hne : values w <> []).
  { intros E. unfold xr.max in Hmax. rewrite E in Hmax. discriminate Hmax. }
  rewrite (max_not_empty w Hne) in Hmax. injection Hmax as Hmax.
  split.
  - cbn [xr.div values]. apply List.Forall_forall. intros y Hy.
    apply in_map_iff in Hy as [x [<- Hx]].
    pose proof (nan_reduce_vmax_upper (values w) x Hnum Hx) as Hle. rewrite Hmax in Hle.
    destruct x as [q| | |]; try contradiction. cbn [num_le] in Hle.
    rewrite (vdiv_number q m Hm). exists (q / m)%Q. split; [reflexivity|].
    apply Qle_shift_div_r; [exact Hm|]. now rewrite Qmult_1_l.
  - destruct (nan_reduce_in vmax (values w) vmax_pick) as [E|Hin]; [congruence|].
    rewrite Hmax in Hin. destruct (In_nth _ _ NaN Hin) as (p & Hp & Hnth).
    exists p. split; [exact Hp|]. cbn [xr.div values].
    change NaN with (vdiv NaN (Num m)) at 1.
    rewrite (map_nth (fun x => vdiv x (Num m))), Hnth, (vdiv_number m m Hm).
    unfold one. f_equal. apply (Qred_complete (m / m) 1). field.
    intros E. rewrite E in Hm. exact (Qlt_irrefl _ Hm).
Qed.

(** Weights that are numbers with a positive maximum: what the preprocessor
    returns, repeated along the dimensions of [a] or not, has the maximum
    one.  The scaling reaches the upper end of the range it aims at, and the
    kernel never sees a weight above it. *)
Theorem returned_maximum_is_one (a w r : DataArray) (dim new_dim : dim_arg) (m : Q) :
  NoDup (dims a) ->
  NoDup (dims w) ->
  length (values w) = size_of (sizes w) ->
  Forall is_number (values w) ->
  xr.max w = Ok (Num m) ->
  (0 < m)%Q ->
  _preprocess_weights a dim new_dim (Some w) = Ok r ->
  xr.max r = Ok one.
Proof.
  intros Hnda Hndw Hlen Hnum Hmax Hm Hok.
  destruct (quotients_at_most_one w m Hnum Hmax Hm) as (Hall & p & Hp & Hone).
  set (nw := xr.div w (Num m)) in *.
  assert (Hin_one : In one (values nw)).
  { rewrite <- Hone. apply nth_In. unfold nw. cbn [xr.div values]. now rewrite length_map. }
  destruct (preprocess_weights_accepts a w r dim new_dim Hok)
    as (m' & lo & sel & Hmax' & _ & _ & Hsel & Heq).
  destruct (preprocess_weights_result a w r dim new_dim Hok) as (m'' & Hmax'' & Hr).
  rewrite Hmax in Hmax''. injection Hmax'' as <-. fold nw in Hr.
  assert (Hgoal : forall l, l <> [] -> values r = l ->
                  nan_reduce vmax l = one -> xr.max r = Ok one).
  { intros l Hl E Hred. rewrite max_not_empty by (now rewrite E). now rewrite E, Hred. }
  destruct Hr as [-> | [-> _]].
  2:{ apply (Hgoal (values nw)); [|reflexivity|now apply nan_reduce_vmax_one].
      intros E. rewrite E in Hin_one. destruct Hin_one. }
  assert (Hw_in_a : forall k n, In (k, n) (sizes w) -> In (k, n) (sizes a)).
  { intros k n Hin. pose proof (as_dict_lookup (sizes w) k n Hndw Hin) as Hl.
    rewrite Heq in Hl. apply as_dict_lookup_inv in Hl.
    rewrite (isel0_sizes _ _ _ Hsel) in Hl. apply filter_In in Hl. tauto. }
  assert (Hrange : forall idx, In idx (indices (sizes a)) ->
                   (offset (sizes w) idx < length (values nw))%nat).
  { intros idx Hidx. unfold nw. cbn [xr.div values]. rewrite length_map, Hlen.
    apply offset_bound. intros k n Hin. apply (coord_bound (sizes a)); auto. }
  assert (Hsub : forall y, In y (values (reindex (sizes a) nw)) -> In y (values nw)).
  { intros y Hy. cbn [reindex values] in Hy. apply in_map_iff in Hy as [idx [<- Hidx]].
    unfold item. apply nth_In. cbn [xr.div sizes nw]. now apply Hrange. }
  assert (Hone_r : In one (values (reindex (sizes a) nw))).
  { rewrite Hlen in Hp.
    destruct (offset_surjective (sizes w) p Hndw Hp) as (idx & Hoff & Hb & Hz).
    set (idxa := map (fun kn => (fst kn, coord idx (fst kn))) (sizes a)).
    assert (Hidxa : In idxa (indices (sizes a))).
    { apply in_indices_coord. intros k n Hin.
      destruct (in_dec string_dec k (dims w)) as [Hk|Hk].
      - apply in_dims in Hk as [n' Hn']. pose proof (Hw_in_a k n' Hn') as Hn''.
        assert (n' = n) as <-.
        { rewrite <- (size_along_lookup a k n' Hnda Hn'').
          now apply size_along_lookup. }
        now apply Hb.
      - rewrite (Hz k Hk).
        assert (Hdrop : In k (drop_dims a new_dim)).
        { destruct (in_dec string_dec k (drop_dims a new_dim)) as [H|H]; [exact H|].
          exfalso. apply Hk.
          assert (Hkept : In (k, n) (sizes sel)).
          { rewrite (isel0_sizes _ _ _ Hsel). apply filter_In. split; [exact Hin|].
            cbn [fst]. apply negb_true_iff. apply not_true_is_false.
            now rewrite list_in_iff. }
          apply (dict_keys (sizes sel) (sizes w)); [now symmetry|].
          apply in_map_iff. exists (k, n). auto. }
        pose proof (isel0_positions a sel _ k n Hsel Hin Hdrop). lia. }
    cbn [reindex values]. apply in_map_iff. exists idxa. split; [|exact Hidxa].
    unfold item. cbn [xr.div sizes nw].
    replace (offset (sizes w) idxa) with p; [exact Hone|].
    rewrite <- Hoff. symmetry. apply offset_ext. intros k Hk. apply coord_map.
    apply in_map_iff in Hk as [[k' n] [E Hin]]. cbn in E. subst k'.
    apply in_map_iff. exists (k, n). split; [reflexivity|]. now apply Hw_in_a. }
  apply (Hgoal (values (reindex (sizes a) nw))); [|reflexivity|].
  - intros E. rewrite E in Hone_r. destruct Hone_r.
  - apply nan_reduce_vmax_one; [|exact Hone_r].
    apply List.Forall_forall. intros y Hy. rewrite List.Forall_forall in Hall.
    apply Hall. now apply Hsub.
Qed.

Lemma returned_maximum_is_one_witness :
  xr.max {| sizes := [("t", 2%nat); ("lat", 3%nat)];
            values := [Num (1 # 4); Num (1 # 2); Num 1;
                       Num (1 # 4); Num (1 # 2); Num 1] |} = Ok one.
Proof.
  apply (returned_maximum_is_one Examples.grid Examples.lat_weights _
           (DimList ["lat"]) (DimList ["lat"]) 4).
  - by_decide.
  - by_decide.
  - reflexivity.
  - repeat constructor.
  - vm_compute. reflexivity.
  - reflexivity.
  - vm_compute. reflexivity.
Defined.

(** ** A dimension name inside the reduction name *)

(** In the correlation family, a dimension of [a] that is not reduced but
    whose name occurs inside the (underscore-joined) reduction name makes
    weights over the listed dimensions unusable: no such weights are ever
    accepted. *)
Theorem substring_clash_rejects_weights (m : metric) (a b w : DataArray)
    (names : list string) (k : string) (c : ufunc_call) :
  is_correlation m = true ->
  In k (dims a) ->
  ~ In k names ->
  str_in k (String.concat "_" names) = true ->
  (forall d, In d (dims w) -> In d names) ->
  metric_fn m a b (DimList names) (Some w) <> Ok c.
Proof.
  intros Hm Hk Hnot Hsub Hw.
  rewrite (correlation_unfold m a b (DimList names) (Some w) Hm). cbv zeta.
  change (fst (_preprocess_dims (DimList names))) with names.
  assert (Hacc : forall x sx r new_dim,
    str_in k new_dim = true ->
    In k (dims x) ->
    k <> new_dim ->
    (forall d, In d (dims sx) -> In d names \/ d = new_dim) ->
    _preprocess_weights x (DimList names) (DimStr new_dim) (Some sx) <> Ok r).
  { intros x sx r new_dim Hs Hkx Hne Hsx Hok.
    apply preprocess_weights_accepts in Hok as (mx & lo & sel & _ & _ & _ & Hsel & Heq).
    assert (Hin : In k (map fst (sizes sel))).
    { rewrite (isel0_sizes _ _ _ Hsel). apply in_dims in Hkx as [n Hn].
      apply in_map_iff. exists (k, n). split; [reflexivity|].
      apply filter_In. split; [exact Hn|]. cbn [fst]. apply negb_true_iff.
      apply not_true_is_false. rewrite list_in_iff, in_drop_dims. cbn [py_in].
      intros [_ H]. congruence. }
    apply (dict_keys (sizes sel) (sizes sx)) in Hin; [|now symmetry].
    destruct (Hsx k Hin) as [H|H]; [exact (Hnot H) | exact (Hne H)]. }
  destruct (1 <? length names)%nat eqn:Hlen.
  - unfold stacked_call. cbv zeta.
    destruct (xr.stack _ names a) as [sa|] eqn:Ha; [|discriminate]. cbn [Py.bind].
    destruct (xr.stack _ names b) as [sb|]; [|discriminate]. cbn [Py.bind].
    destruct (xr.stack _ names w) as [sw|] eqn:Hsw; [|discriminate]. cbn [Py.bind].
    destruct (_preprocess_weights sa _ _ (Some sw)) as [r|] eqn:Hr; [|discriminate].
    exfalso. revert Hr.
    destruct (stack_ok _ _ _ _ Ha) as (_ & _ & Hnew & Hsa).
    destruct (stack_ok _ _ _ _ Hsw) as (_ & _ & _ & Hsizes).
    apply Hacc.
    + exact Hsub.
    + apply in_dims in Hk as [n Hn]. apply in_dims. exists n. rewrite Hsa.
      apply in_app_iff. left. apply filter_In. split; [exact Hn|]. cbn [fst].
      apply negb_true_iff. apply not_true_is_false. now rewrite list_in_iff.
    + intros ->. exact (Hnew Hk).
    + intros d Hd. apply in_dims in Hd as [n Hn]. rewrite Hsizes in Hn.
      apply in_app_iff in Hn as [Hn|[E|[]]].
      * left. apply Hw. apply filter_In in Hn as [Hn _]. apply in_dims. eauto.
      * injection E as <- _. now right.
  - destruct names as [|d [|d' rest]]; [discriminate | | discriminate Hlen].
    unfold single_call. change (String.concat "_" [d]) with d in Hsub.
    destruct (_preprocess_weights a _ _ (Some w)) as [r|] eqn:Hr; [|discriminate].
    exfalso. revert Hr. apply Hacc.
    + exact Hsub.
    + exact Hk.
    + intros ->. apply Hnot. now left.
    + intros d0 Hd0. left. now apply Hw.
Qed.

Lemma substring_clash_rejects_weights_witness :
  pearson_r Examples.grid Examples.grid (DimList ["lat"]) (Some Examples.lat_weights)
    <> Ok {| func := _pearson_r; arg_a := Examples.grid; arg_b := Examples.grid;
             arg_weights := Examples.lat_weights;
             input_core_dims := [["lat"]; ["lat"]; ["lat"]]; axis := AxisInt (-1) |}.
Proof.
  apply (substring_clash_rejects_weights Pearson_r Examples.grid Examples.grid
           Examples.lat_weights ["lat"] "t").
  - reflexivity.
  - simpl. auto.
  - simpl. intros [H|[]]. discriminate H.
  - reflexivity.
  - intros d Hd. exact Hd.
Defined.

(** ** Calls without weights, and the second array *)

(** Without weights, the kernel is handed ones shaped like the first array
    of the call: like [a], or like the stacked [a] in the correlation
    family. *)
Theorem no_weights_hand_ones (m : metric) (a b : DataArray) (dim : dim_arg)
    (c : ufunc_call) :
  metric_fn m a b dim None = Ok c ->
  arg_weights c = xr.ones_like (arg_a c).
Proof.
  destruct (is_correlation m) eqn:Hm.
  - rewrite (correlation_unfold m a b dim None Hm). cbv zeta.
    destruct (1 <? length (fst (_preprocess_dims dim)))%nat.
    + unfold stacked_call. cbv zeta.
      destruct (xr.stack _ _ a) as [sa|]; [|discriminate]. cbn [Py.bind].
      destruct (xr.stack _ _ b) as [sb|]; [|discriminate]. cbn.
      intros H. injection H as <-. reflexivity.
    + destruct (fst (_preprocess_dims dim)) as [|d rest]; [discriminate|].
      unfold single_call. cbn. intros H. injection H as <-. reflexivity.
  - rewrite (error_unfold m a b dim None Hm). unfold unstacked_call. cbn.
    intros H. injection H as <-. reflexivity.
Qed.

Lemma no_weights_hand_ones_witness :
  {| sizes := [("t_lat", 6%nat)]; values := repeat one 6 |}
    = xr.ones_like
        {| sizes := [("t_lat", 6%nat)]; values := map Examples.num [1; 2; 3; 4; 5; 6]%Z |}.
Proof.
  exact (no_weights_hand_ones Pearson_r Examples.grid Examples.grid (DimList ["t"; "lat"])
           {| func := _pearson_r;
              arg_a := {| sizes := [("t_lat", 6%nat)];
                          values := map Examples.num [1; 2; 3; 4; 5; 6]%Z |};
              arg_b := {| sizes := [("t_lat", 6%nat)];
                          values := map Examples.num [1; 2; 3; 4; 5; 6]%Z |};
              arg_weights := {| sizes := [("t_lat", 6%nat)]; values := repeat one 6 |};
              input_core_dims := [["t_lat"]; ["t_lat"]; ["t_lat"]];
              axis := AxisInt (-1) |}
           eq_refl).
Defined.

(** The module never compares [b] with [a].  For [rmse], [mse] and [mae]
    the second array plays no part in what happens to the weights: the error
    raised, or the weights handed to the kernel, are the same for every
    [b]. *)
Theorem error_family_ignores_b (m : metric) (a b b' : DataArray) (dim : dim_arg)
    (weights : option DataArray) :
  is_correlation m = false ->
  weights_of (metric_fn m a b dim weights) = weights_of (metric_fn m a b' dim weights)
  /\ forall c, metric_fn m a b dim weights = Ok c -> arg_b c = b.
Proof.
  intros Hm. rewrite !(error_unfold m a _ dim weights Hm). unfold unstacked_call. cbv zeta.
  destruct (_preprocess_weights a _ _ weights) as [r|e]; cbn [Py.bind weights_of].
  - split; [reflexivity|]. intros c H. injection H as <-. reflexivity.
  - split; [reflexivity|]. intros c H. discriminate H.
Qed.

Lemma error_family_ignores_b_witness :
  weights_of (rmse Examples.grid Examples.grid (DimStr "lat") (Some Examples.lat_weights))
    = weights_of (rmse Examples.grid Examples.series (DimStr "lat")
                    (Some Examples.lat_weights))
  /\ forall c,
       rmse Examples.grid Examples.grid (DimStr "lat") (Some Examples.lat_weights) = Ok c ->
       arg_b c = Examples.grid.
Proof.
  exact (error_family_ignores_b Rmse Examples.grid Examples.grid Examples.series
           (DimStr "lat") (Some Examples.lat_weights) eq_refl).
Defined.
